(** * Loan eligibility: the trainer (train_model.py) and the predictor (app.py)

    A shallow embedding of the two scripts of the repository.  Python
    exceptions are the [Err] branch of a small error monad [Result]; the
    Streamlit page is the list of elements a script run renders, in order;
    a Python [dict] is a stdpp [gmap string _]; a one-row pandas DataFrame
    is the list of its (column, value) pairs in column order, [None]
    standing for a NaN cell. *)

From Stdlib Require Import ZArith Ascii String List Sorted Floats.
From stdpp Require Import base gmap strings list.
Import ListNotations.

Open Scope string_scope.

(** ** Python values, exceptions and the error monad *)

(** A Python value held in a DataFrame cell or passed to [int()]: a str
    or a number.  Numbers are modelled as integers: the form's numeric
    widgets return ints, and the trainer facts proved here only compare
    cells for equality and order. *)
Inductive cell :=
| CStr (s : string)
| CNum (z : Z).

Definition cell_eqb (a b : cell) : bool :=
  match a, b with
  | CStr s, CStr t => String.eqb s t
  | CNum x, CNum y => Z.eqb x y
  | _, _ => false
  end.

(** The exceptions raised by the code or by the libraries it calls. *)
Inductive exn :=
| ValueError (msg : string)
| KeyError (key : string)
| IndexError
| TypeError (msg : string)
| LoadError (path : string)
(** [st.stop()]: raised by Streamlit, caught by its script runner. *)
| StopException.

Inductive Result (A : Type) :=
| Ok (a : A)
| Err (e : exn).
Arguments Ok {A} a.
Arguments Err {A} e.

Definition bind {A B} (m : Result A) (k : A -> Result B) : Result B :=
  match m with
  | Ok a => k a
  | Err e => Err e
  end.

Notation "'let!' x ':=' m 'in' k" := (bind m (fun x => k))
  (at level 200, x name, m at level 100, k at level 200).

(** [int(s)] on a string: an optional sign followed by ASCII digits.
    (Surrounding whitespace and digit separators, which Python also
    accepts, never occur among the form's values.) *)
Definition digit_val (c : Ascii.ascii) : option Z :=
  let n := Ascii.nat_of_ascii c in
  if (48 <=? n)%nat && (n <=? 57)%nat then Some (Z.of_nat (n - 48)) else None.

Fixpoint digits_val (acc : Z) (s : string) : option Z :=
  match s with
  | EmptyString => Some acc
  | String c r =>
      match digit_val c with
      | Some d => digits_val (10 * acc + d) r
      | None => None
      end
  end.

Definition py_int (s : string) : Result Z :=
  let unsigned r :=
    match r with
    | EmptyString => None
    | _ => digits_val 0 r
    end in
  let parsed :=
    match s with
    | String "-"%char r => option_map Z.opp (unsigned r)
    | String "+"%char r => unsigned r
    | _ => unsigned s
    end in
  match parsed with
  | Some z => Ok z
  | None => Err (ValueError ("invalid literal for int() with base 10: " ++ s))
  end.

(** ** sklearn's LabelEncoder *)

(** A fitted encoder keeps [classes_], the sorted distinct labels seen at
    fit time; a label's code is its position in [classes_]. *)
Record LabelEncoder := { classes_ : list cell }.

Fixpoint index_of (v : cell) (l : list cell) : option nat :=
  match l with
  | [] => None
  | x :: r => if cell_eqb x v then Some 0%nat else option_map S (index_of v r)
  end.

(** [le.transform([value])[0]] *)
Definition le_transform (le : LabelEncoder) (v : cell) : Result Z :=
  match index_of v (classes_ le) with
  | Some i => Ok (Z.of_nat i)
  | None => Err (ValueError "y contains previously unseen labels")
  end.

(** ** The predictor (app.py) *)

Module App.

(** The values of the sidebar widgets (lines 26-36). *)
Record form := {
  gender : string;
  married : string;
  dependents : string;
  education : string;
  self_employed : string;
  applicant_income : Z;
  coapplicant_income : Z;
  loan_amount : Z;
  loan_amount_term : Z;
  credit_history : Z;
  property_area : string
}.

(** What the widgets can return: a selectbox returns one of its options,
    a number_input with [min_value=0] a non-negative integer. *)
Definition form_ok (f : form) : Prop :=
  In (gender f) ["Male"; "Female"] /\
  In (married f) ["No"; "Yes"] /\
  In (dependents f) ["0"; "1"; "2"; "3+"] /\
  In (education f) ["Graduate"; "Not Graduate"] /\
  In (self_employed f) ["No"; "Yes"] /\
  (0 <= applicant_income f)%Z /\
  (0 <= coapplicant_income f)%Z /\
  (0 <= loan_amount f)%Z /\
  In (loan_amount_term f) [360; 180; 120; 60]%Z /\
  In (credit_history f) [1; 0]%Z /\
  In (property_area f) ["Urban"; "Semiurban"; "Rural"].

(** [label_encoders]: the dict loaded from the artifact. *)
Abbreviation encoders := (gmap string LabelEncoder).

(** A one-row DataFrame: (column, value) in column order, [None] = NaN. *)
Abbreviation row := (list (string * option Z)).

Definition feature_order : list string :=
  ["Gender"; "Married"; "Dependents"; "Education"; "Self_Employed";
   "ApplicantIncome"; "CoapplicantIncome"; "LoanAmount";
   "Loan_Amount_Term"; "Credit_History"; "Property_Area"].

Definition categorical_cols : list string :=
  ["Gender"; "Married"; "Education"; "Self_Employed"; "Property_Area"].

(** Line 42: [label_encoders[col].transform([value])[0] if col in
    label_encoders else 0]. *)
Definition encode_field (encs : encoders) (col value : string) : Result Z :=
  match encs !! col with
  | Some le => le_transform le (CStr value)
  | None => Ok 0%Z
  end.

(** Lines 40-42: the loop over [zip(cols, values)], filling [data]. *)
Fixpoint encode_loop (encs : encoders) (pairs : list (string * string))
    (data : gmap string Z) : Result (gmap string Z) :=
  match pairs with
  | [] => Ok data
  | (col, value) :: rest =>
      let! code := encode_field encs col value in
      encode_loop encs rest (<[col := code]> data)
  end.

(** [int(v)] on a str or an int. *)
Definition py_int_of (v : cell) : Result Z :=
  match v with
  | CStr s => py_int s
  | CNum z => Ok z
  end.

(** Line 45: [3 if dependents == "3+" else int(dependents)]; a str equals
    ["3+"] only if it is that string, an int never does. *)
Definition normalize_dependents (d : cell) : Result Z :=
  if cell_eqb d (CStr "3+") then Ok 3%Z else py_int_of d.

(** Line 56: [pd.DataFrame([data], columns=feature_order)]: the columns
    are taken from [feature_order], a key missing from [data] gives NaN. *)
Definition to_frame (data : gmap string Z) : row :=
  map (fun c => (c, data !! c)) feature_order.

(** [user_input_features()], lines 38-56, on the widget values [f]. *)
Definition user_input_features (encs : encoders) (f : form) : Result row :=
  let! data := encode_loop encs
       (combine categorical_cols
          [gender f; married f; education f; self_employed f; property_area f])
       ∅ in
  let! dep := normalize_dependents (CStr (dependents f)) in
  let data := <[ "Dependents" := dep ]> data in
  let data :=
    <[ "Credit_History" := credit_history f ]>
    (<[ "Loan_Amount_Term" := loan_amount_term f ]>
    (<[ "LoanAmount" := loan_amount f ]>
    (<[ "CoapplicantIncome" := coapplicant_income f ]>
    (<[ "ApplicantIncome" := applicant_income f ]> data)))) in
  Ok (to_frame data).


(** *** The rendered page and the script runner

    Streamlit renders elements as the script executes them: an element
    emitted before an exception stays on the page.  A script step is a
    state-passing function over the page built so far that may raise. *)

(** The page elements the script emits.  [EApproved p] is
    [st.success(f"Loan Approved with {p:.2f}% probability!")],
    [ENotApproved p] is [st.error(f"Loan Not Approved (Approval Chance:
    {p:.2f}%)")], [EErrorExn prefix e] is [st.error(f"{prefix}{e}")];
    the emoji of the messages are left out. *)
Inductive element :=
| ETitle (s : string)
| EHeader (s : string)
| ESubheader (s : string)
| EApproved (proba : float)
| ENotApproved (proba : float)
| EErrorExn (prefix : string) (e : exn)
| EPlot (labels : list string) (ys : list (option Z))
| ETable (df : row)
| EWrite (s : string).

Definition Page (A : Type) : Type := list element -> list element * Result A.

Global Instance page_ret : MRet Page := fun A a page => (page, Ok a).
Global Instance page_bind : MBind Page := fun A B k m page =>
  match m page with
  | (page', Ok a) => k a page'
  | (page', Err e) => (page', Err e)
  end.

Definition emit (el : element) : Page unit := fun page => ((page ++ [el])%list, Ok tt).
Definition lift {A} (r : Result A) : Page A := fun page => (page, r).
Definition raise {A} (e : exn) : Page A := fun page => (page, Err e).

(** [try: body except Exception as e: handler(e)].  No [try] body of the
    script calls [st.stop()], so no handler meets [StopException]. *)
Definition try_except {A} (body : Page A) (handler : exn -> Page A) : Page A :=
  fun page =>
    match body page with
    | (page', Ok a) => (page', Ok a)
    | (page', Err e) => handler e page'
    end.

(** A fitted classifier as the script uses it: [predict] and
    [predict_proba] on the one-row frame, for its only row. *)
Record Classifier := {
  predict : row -> Result Z;
  predict_proba : row -> Result (list float)
}.

(** [input_df[c][0]]: a missing column raises [KeyError]. *)
Definition df_get (df : row) (c : string) : Result (option Z) :=
  match find (fun p => String.eqb (fst p) c) df with
  | Some (_, v) => Ok v
  | None => Err (KeyError c)
  end.

(** [l[i]] on a Python list. *)
Definition py_index {A} (l : list A) (i : nat) : Result A :=
  match nth_error l i with
  | Some a => Ok a
  | None => Err IndexError
  end.

(** Comparisons with a cell that may be NaN: NaN compares false. *)
Definition cell_eq_Z (v : option Z) (z : Z) : bool :=
  match v with Some x => Z.eqb x z | None => false end.
Definition cell_gt_Z (v : option Z) (z : Z) : bool :=
  match v with Some x => Z.ltb z x | None => false end.

Definition good_credit_msg := "Good credit history increases approval chances!".
Definition poor_credit_msg := "Poor credit history might lower approval chances.".
Definition high_income_msg := "High applicant income is a positive factor!".
Definition large_loan_msg := "Large loan amounts may require additional scrutiny.".

(** Lines 86-95: the additional insights. *)
Definition insights (df : row) : Page unit :=
  ch ← lift (df_get df "Credit_History");
  (if cell_eq_Z ch 1 then emit (EWrite good_credit_msg)
   else emit (EWrite poor_credit_msg)) ;;
  ai ← lift (df_get df "ApplicantIncome");
  (if cell_gt_Z ai 8000 then emit (EWrite high_income_msg) else mret tt) ;;
  la ← lift (df_get df "LoanAmount");
  (if cell_gt_Z la 300 then emit (EWrite large_loan_msg) else mret tt).

(** Lines 63-95: the body of the [try] under the button. *)
Definition prediction_body (model : Classifier) (input_df : row) : Page unit :=
  prediction ← lift (predict model input_df);
  probs ← lift (predict_proba model input_df);
  p1 ← lift (py_index probs 1);
  let proba := (p1 * 100)%float in
  emit (ESubheader "Prediction Result") ;;
  emit (if Z.eqb prediction 1 then EApproved proba else ENotApproved proba) ;;
  emit (ESubheader "Loan Distribution Insights") ;;
  ai ← lift (df_get input_df "ApplicantIncome");
  ci ← lift (df_get input_df "CoapplicantIncome");
  la ← lift (df_get input_df "LoanAmount");
  emit (EPlot ["Applicant Income"; "Coapplicant Income"; "Loan Amount"] [ai; ci; la]) ;;
  emit (ESubheader "User Input Summary") ;;
  emit (ETable input_df) ;;
  emit (ESubheader "Additional Insights") ;;
  insights input_df.

(** The whole of app.py for one script run.  [load_model] and
    [load_encoders] are the results of the two [joblib.load] calls,
    [f] the widget values and [pressed] the value of the button.  The
    sidebar widgets of lines 26-36 and 61 are inputs here, not page
    elements. *)
Definition app_script (load_model : Result Classifier)
    (load_encoders : Result encoders) (f : form) (pressed : bool) : Page unit :=
  (* lines 8-13 *)
  '(model, label_encoders) ←
    try_except
      (model ← lift load_model;
       label_encoders ← lift load_encoders;
       mret (model, label_encoders))
      (fun e => emit (EErrorExn "Error loading model: " e) ;; raise StopException);
  emit (ETitle "Loan Eligibility Prediction System") ;;
  emit (EHeader "User Input Features") ;;
  (* line 58 *)
  input_df ← lift (user_input_features label_encoders f);
  (* lines 61-98 *)
  if pressed then
    try_except (prediction_body model input_df)
      (fun e => emit (EErrorExn "Error during prediction: " e))
  else mret tt.

(** How a script run ends, as Streamlit's runner sees it. *)
Inductive outcome :=
| Finished (page : list element)
| Stopped (page : list element)
| Uncaught (page : list element) (e : exn).

Definition run (s : Page unit) : outcome :=
  match s [] with
  | (page, Ok _) => Finished page
  | (page, Err StopException) => Stopped page
  | (page, Err e) => Uncaught page e
  end.

(** *** The classifier train_model.py fits: sklearn's RandomForestClassifier

    Probabilities are float64, Rocq's primitive [float], computed in the
    order sklearn and numpy compute them.  Each fitted tree sends a row to
    a leaf holding the weighted numbers of training samples of class 0
    and of class 1 that reached it; the bootstrap weights are whole
    numbers, so these are naturals.  The encoded target has
    [classes_ = [0, 1]] (Loan_Status "N" and "Y"). *)
Abbreviation tree := (row -> nat * nat).

(** A count as the float64 sklearn holds it (exact below 2^53). *)
Definition float_of_nat (n : nat) : float :=
  PrimFloat.of_uint63 (Uint63Axioms.of_Z (Z.of_nat n)).

(** [DecisionTreeClassifier.predict_proba] at the leaf a row reaches:
    [tree_.value] holds the leaf's class fractions (each count over the
    leaf's total), and [predict_proba] divides them by their sum, a zero
    sum being replaced by 1. *)
Definition leaf_proba (leaf : nat * nat) : list float :=
  let '(n0, n1) := leaf in
  let t := float_of_nat (n0 + n1) in
  let v0 := (float_of_nat n0 / t)%float in
  let v1 := (float_of_nat n1 / t)%float in
  let s := (v0 + v1)%float in
  let normalizer := if PrimFloat.eqb s 0%float then 1%float else s in
  [(v0 / normalizer)%float; (v1 / normalizer)%float].

(** numpy's elementwise [all_proba += proba]. *)
Definition vec_add (u v : list float) : list float :=
  map (fun '(a, b) => (a + b)%float) (combine u v).

(** [ForestClassifier.predict_proba]: [all_proba] starts at zeros, each
    tree's probabilities are added in turn, in estimator order, then
    [all_proba /= len(self.estimators_)]. *)
Definition forest_proba (trees : list tree) (r : row) : list float :=
  let all_proba :=
    fold_left (fun acc t => vec_add acc (leaf_proba (t r))) trees [0; 0]%float in
  map (fun q => q / float_of_nat (length trees))%float all_proba.

(** [np.argmax] on float64: numpy's loop keeps the first maximum,
    replacing it by a later [x] when [!(x <= max)], and stops at the
    first NaN; an empty array raises. *)
Fixpoint argmax_from (i best : nat) (bv : float) (l : list float) : nat :=
  if PrimFloat.is_nan bv then best else
  match l with
  | [] => best
  | x :: r =>
      if negb (PrimFloat.leb x bv) then argmax_from (S i) i x r
      else argmax_from (S i) best bv r
  end.

Definition argmax (l : list float) : Result nat :=
  match l with
  | [] => Err (ValueError "attempt to get argmax of an empty sequence")
  | x :: r => Ok (argmax_from 1 0 x r)
  end.

Definition forest_classes : list Z := [0; 1]%Z.

(** A fitted forest: [feature_names_in_], the columns of the frame it was
    fitted on, and its trees. *)
Record forest := {
  feature_names_in_ : list string;
  estimators_ : list tree
}.

Definition feature_names_msg :=
  "The feature names should match those that were passed during fit.".

(** The check [predict] and [predict_proba] run through [validate_data]
    ([_check_feature_names]) on a frame for a forest fitted on a frame:
    the column names must be those seen at fit, in the same order, or
    [ValueError] is raised (the first line of its message is kept).  With
    the names equal, the feature counts agree too. *)
Definition check_feature_names (fo : forest) (r : row) : Result unit :=
  if bool_decide (map fst r = feature_names_in_ fo) then Ok tt
  else Err (ValueError feature_names_msg).

(** [ForestClassifier.predict_proba], and [predict]:
    [classes_.take(np.argmax(proba, axis=1))]. *)
Definition forest_classifier (fo : forest) : Classifier := {|
  predict := fun r =>
    let! _ := check_feature_names fo r in
    let! i := argmax (forest_proba (estimators_ fo) r) in
    py_index forest_classes i;
  predict_proba := fun r =>
    let! _ := check_feature_names fo r in
    Ok (forest_proba (estimators_ fo) r)
|}.

(** The page a run leaves, whichever way it ends. *)
Definition page_of (o : outcome) : list element :=
  match o with
  | Finished p | Stopped p => p
  | Uncaught p _ => p
  end.

(** The advisory elements of a page: the [st.write] messages. *)
Definition is_flag (el : element) : bool :=
  match el with EWrite _ => true | _ => false end.

Definition flags (page : list element) : list element := List.filter is_flag page.

(** The frame of line 56 for the encoded codes [g m e s p], the
    normalized dependents [d] and the numeric widget values of [f]. *)
Definition frame (g m d e s : Z) (f : form) (p : Z) : row :=
  [("Gender", Some g); ("Married", Some m); ("Dependents", Some d);
   ("Education", Some e); ("Self_Employed", Some s);
   ("ApplicantIncome", Some (applicant_income f));
   ("CoapplicantIncome", Some (coapplicant_income f));
   ("LoanAmount", Some (loan_amount f));
   ("Loan_Amount_Term", Some (loan_amount_term f));
   ("Credit_History", Some (credit_history f));
   ("Property_Area", Some p)].

(** The messages lines 86-95 write for the widget values [f]. *)
Definition advisories (f : form) : list element :=
  [EWrite (if Z.eqb (credit_history f) 1 then good_credit_msg else poor_credit_msg)] ++
  (if Z.ltb 8000 (applicant_income f) then [EWrite high_income_msg] else []) ++
  (if Z.ltb 300 (loan_amount f) then [EWrite large_loan_msg] else []).

End App.

(** ** The trainer (train_model.py) *)

Module Trainer.

(** The DataFrame read from the CSV: its columns in order, each with its
    cells; [None] is a missing (NaN) cell. *)
Abbreviation table := (list (string * list (option cell))).

(** Line 11: [df.drop(columns=['Loan_ID'])]; a missing column raises. *)
Definition drop_column (name : string) (tbl : table) : Result table :=
  if existsb (fun c => String.eqb (fst c) name) tbl
  then Ok (List.filter (fun c => negb (String.eqb (fst c) name)) tbl)
  else Err (KeyError name).

(** Python's [<] between two cells: str with str, number with number;
    anything else raises [TypeError]. *)
Definition cell_lt (a b : cell) : Result bool :=
  match a, b with
  | CStr s, CStr t => Ok (String.ltb s t)
  | CNum x, CNum y => Ok (Z.ltb x y)
  | _, _ => Err (TypeError "'<' not supported between instances")
  end.

Definition observed (col : list (option cell)) : list cell :=
  fold_right (fun o acc => match o with Some v => v :: acc | None => acc end) [] col.

Definition count_of (v : cell) (l : list cell) : nat :=
  length (List.filter (cell_eqb v) l).

(** The distinct values of a list, in order of first occurrence (the
    iteration order of a [Counter]). *)
Fixpoint distinct (l : list cell) : list cell :=
  match l with
  | [] => []
  | x :: r => x :: List.filter (fun y => negb (cell_eqb x y)) (distinct r)
  end.

(** Python's [min(iterable)]: keeps the current value unless a later one
    is strictly smaller. *)
Fixpoint py_min_from (cur : cell) (l : list cell) : Result cell :=
  match l with
  | [] => Ok cur
  | x :: r =>
      let! lt := cell_lt x cur in
      py_min_from (if lt then x else cur) r
  end.

(** sklearn's [_most_frequent(row, np.nan, 0)] on an object column:
    [None] (NaN) when nothing was observed, otherwise the smallest of the
    most frequent observed values. *)
Definition most_frequent (col : list (option cell)) : Result (option cell) :=
  let obs := observed col in
  let ds := distinct obs in
  match ds with
  | [] => Ok None
  | _ :: _ =>
      let maxc := fold_right (fun v m => Nat.max (count_of v obs) m) 0%nat ds in
      match List.filter (fun v => Nat.eqb (count_of v obs) maxc) ds with
      | [] => Ok None
      | x :: r => let! m := py_min_from x r in Ok (Some m)
      end
  end.

Fixpoint map_result {A B} (f : A -> Result B) (l : list A) : Result (list B) :=
  match l with
  | [] => Ok []
  | x :: r => let! y := f x in let! ys := map_result f r in Ok (y :: ys)
  end.

(** Lines 14-15: [SimpleImputer(strategy='most_frequent')], then
    [df.iloc[:, :] = imputer.fit_transform(df)].  [fit] computes one
    statistic per column; [transform] drops the columns whose statistic
    is NaN (nothing observed), and the assignment of a narrower array to
    [df.iloc[:, :]] then raises. *)
Definition impute (tbl : table) : Result table :=
  let! stats := map_result (fun c => most_frequent (snd c)) tbl in
  if existsb (fun o => match o with None => true | Some _ => false end) stats
  then Err (ValueError "shape mismatch: could not broadcast input array")
  else Ok (map (fun '((name, col), st) =>
                  (name, map (fun o => match o with
                                       | Some v => Some v
                                       | None => st
                                       end) col))
               (combine tbl stats)).

(** Line 18: [df.replace({'3+': 3})], on every cell. *)
Definition replace_cell (c : cell) : cell :=
  if cell_eqb c (CStr "3+") then CNum 3 else c.

Definition replace_3plus (tbl : table) : table :=
  map (fun '(name, col) => (name, map (option_map replace_cell) col)) tbl.

(** [df[col]]: a missing column raises [KeyError]. *)
Definition get_column (name : string) (tbl : table) : Result (list (option cell)) :=
  match find (fun c => String.eqb (fst c) name) tbl with
  | Some (_, col) => Ok col
  | None => Err (KeyError name)
  end.

(** [df[col] = values] on an existing column. *)
Definition set_column (name : string) (col : list (option cell)) (tbl : table) : table :=
  map (fun c => if String.eqb (fst c) name then (name, col) else c) tbl.

Fixpoint sorted_insert (x : cell) (l : list cell) : Result (list cell) :=
  match l with
  | [] => Ok [x]
  | y :: r =>
      let! lt := cell_lt x y in
      if lt then Ok (x :: y :: r)
      else let! r' := sorted_insert x r in Ok (y :: r')
  end.

Fixpoint sort_cells (l : list cell) : Result (list cell) :=
  match l with
  | [] => Ok []
  | x :: r => let! r' := sort_cells r in sorted_insert x r'
  end.

(** [LabelEncoder().fit(column)]: [classes_ = np.unique(column)], the
    sorted distinct values; sorting a str against a number raises, and a
    NaN cell is a float (none is left after imputation). *)
Definition le_fit (col : list (option cell)) : Result LabelEncoder :=
  let! cells := map_result (fun o => match o with
                                     | Some v => Ok v
                                     | None => Err (TypeError "'<' not supported between instances")
                                     end) col in
  let! classes := sort_cells (distinct cells) in
  Ok {| classes_ := classes |}.

(** Line 24: [le.fit_transform(df[col])]. *)
Definition le_fit_transform (col : list (option cell)) : Result (LabelEncoder * list (option cell)) :=
  let! le := le_fit col in
  let! codes := map_result (fun o => match o with
                                     | Some v => le_transform le v
                                     | None => Err (TypeError "'<' not supported between instances")
                                     end) col in
  Ok (le, map (fun z => Some (CNum z)) codes).

Definition encoded_cols : list string :=
  ["Gender"; "Married"; "Education"; "Self_Employed"; "Property_Area"; "Loan_Status"].

(** Lines 21-25: one encoder per column, stored in [label_encoders]. *)
Fixpoint encode_columns (cols : list string) (tbl : table)
    (label_encoders : gmap string LabelEncoder)
    : Result (table * gmap string LabelEncoder) :=
  match cols with
  | [] => Ok (tbl, label_encoders)
  | col :: rest =>
      let! column := get_column col tbl in
      let! fitted := le_fit_transform column in
      let '(le, codes) := fitted in
      encode_columns rest (set_column col codes tbl) (<[col := le]> label_encoders)
  end.

(** Lines 10-25 from the DataFrame [read_csv] returns to the encoded
    DataFrame and the encoder set dumped on line 38.  (The split and the
    forest fit of lines 28-34 use the encoded DataFrame only.) *)
Definition train (raw : table) : Result (table * gmap string LabelEncoder) :=
  let! df := drop_column "Loan_ID" raw in
  let! df := impute df in
  let df := replace_3plus df in
  encode_columns encoded_cols df ∅.

End Trainer.

(** ** Sample inputs *)

Module Samples.
Import App.

(** A few rows of a loan CSV in which no applicant is self-employed. *)
Definition sample_raw : Trainer.table :=
  [("Loan_ID", [Some (CStr "LP001002"); Some (CStr "LP001003"); Some (CStr "LP001005")]);
   ("Gender", [Some (CStr "Male"); None; Some (CStr "Female")]);
   ("Married", [Some (CStr "No"); Some (CStr "Yes"); Some (CStr "Yes")]);
   ("Dependents", [Some (CStr "0"); Some (CStr "3+"); None]);
   ("Education", [Some (CStr "Graduate"); Some (CStr "Graduate"); Some (CStr "Not Graduate")]);
   ("Self_Employed", [Some (CStr "No"); None; Some (CStr "No")]);
   ("ApplicantIncome", [Some (CNum 5849); Some (CNum 4583); Some (CNum 3000)]);
   ("CoapplicantIncome", [Some (CNum 0); Some (CNum 1508); Some (CNum 0)]);
   ("LoanAmount", [None; Some (CNum 128); Some (CNum 66)]);
   ("Loan_Amount_Term", [Some (CNum 360); Some (CNum 360); None]);
   ("Credit_History", [Some (CNum 1); Some (CNum 1); Some (CNum 0)]);
   ("Property_Area", [Some (CStr "Urban"); Some (CStr "Rural"); Some (CStr "Semiurban")]);
   ("Loan_Status", [Some (CStr "Y"); Some (CStr "N"); Some (CStr "Y")])].

(** The encoder set the trainer fits on [sample_raw]. *)
Definition sample_encoders : gmap string LabelEncoder :=
  match Trainer.train sample_raw with
  | Ok (_, encs) => encs
  | Err _ => ∅
  end.

Definition sample_form : form := {|
  gender := "Male"; married := "Yes"; dependents := "3+";
  education := "Graduate"; self_employed := "No";
  applicant_income := 9000; coapplicant_income := 2000;
  loan_amount := 350; loan_amount_term := 360;
  credit_history := 0; property_area := "Urban" |}.

(** The same applicant, self-employed. *)
Definition sample_form_self_employed : form := {|
  gender := "Male"; married := "Yes"; dependents := "3+";
  education := "Graduate"; self_employed := "Yes";
  applicant_income := 9000; coapplicant_income := 2000;
  loan_amount := 350; loan_amount_term := 360;
  credit_history := 0; property_area := "Urban" |}.

Definition sample_frame : row :=
  Eval vm_compute in
    match user_input_features sample_encoders sample_form with
    | Ok df => df
    | Err _ => []
    end.

(** The encoder set without its Gender encoder. *)
Definition encoders_without_gender : gmap string LabelEncoder :=
  delete "Gender" sample_encoders.

Definition frame_without_gender : row :=
  Eval vm_compute in
    match user_input_features encoders_without_gender sample_form with
    | Ok df => df
    | Err _ => []
    end.

(** Three trees voting 1, 1/2 and 0 for approval, fitted on the columns
    the app builds. *)
Definition small_trees : list tree :=
  [fun _ => (0, 3)%nat; fun _ => (1, 1)%nat; fun _ => (2, 0)%nat].

Definition small_forest : forest :=
  {| feature_names_in_ := feature_order; estimators_ := small_trees |}.

Definition small_forest_proba : list float :=
  Eval vm_compute in forest_proba small_trees sample_frame.




(** What the trainer's imputation and encoding make of [sample_raw]. *)
Definition sample_imputed : Trainer.table :=
  Eval vm_compute in
    match Trainer.impute sample_raw with
    | Ok t => t
    | Err _ => []
    end.

Definition sample_trained_table : Trainer.table :=
  Eval vm_compute in
    match Trainer.train sample_raw with
    | Ok (t, _) => t
    | Err _ => []
    end.

(** A classifier whose [predict] raises, as sklearn does when the frame
    does not have the features the model was fitted on. *)
Definition mismatched_classifier : Classifier := {|
  predict := fun _ => Err (ValueError "X has 11 features, but RandomForestClassifier is expecting 12 features as input.");
  predict_proba := fun _ => Err (ValueError "X has 11 features, but RandomForestClassifier is expecting 12 features as input.")
|}.

(** A forest fitted on a CSV whose Loan_Status is always "Y": the target
    encoder has one class (code 0), and [predict_proba] one column. *)
Definition single_class_classifier : Classifier := {|
  predict := fun _ => Ok 0%Z;
  predict_proba := fun _ => Ok [1%float]
|}.

(** [sample_raw] with no Credit_History recorded at all. *)
Definition raw_blank_credit : Trainer.table :=
  map (fun c => if String.eqb (fst c) "Credit_History"
                then (fst c, map (fun _ => None) (snd c)) else c) sample_raw.

(** [sample_raw] without its Loan_ID column, and without its Education
    column. *)
Definition raw_without_id : Trainer.table := List.tl sample_raw.

Definition raw_without_education : Trainer.table :=
  List.filter (fun c => negb (String.eqb (fst c) "Education")) sample_raw.

(** The table [encode_columns] starts from on [sample_raw]. *)
Definition sample_replaced : Trainer.table :=
  Eval vm_compute in
    match Trainer.drop_column "Loan_ID" sample_raw with
    | Ok t => match Trainer.impute t with
              | Ok t' => Trainer.replace_3plus t'
              | Err _ => []
              end
    | Err _ => []
    end.

End Samples.

(** * Proofs *)

Lemma cell_eqb_eq a b : cell_eqb a b = true <-> a = b.
Proof.
  destruct a, b; simpl; split; intros H; try discriminate; try congruence.
  - apply String.eqb_eq in H; congruence.
  - inversion H; apply String.eqb_refl.
  - apply Z.eqb_eq in H; congruence.
  - inversion H; apply Z.eqb_refl.
Qed.

Module AppFacts.
Import App.

Lemma user_input_features_shape encs f df :
  user_input_features encs f = Ok df ->
  exists g m e s p d,
    encode_field encs "Gender" (gender f) = Ok g /\
    encode_field encs "Married" (married f) = Ok m /\
    encode_field encs "Education" (education f) = Ok e /\
    encode_field encs "Self_Employed" (self_employed f) = Ok s /\
    encode_field encs "Property_Area" (property_area f) = Ok p /\
    normalize_dependents (CStr (dependents f)) = Ok d /\
    df = frame g m d e s f p.
Proof.
  unfold user_input_features; cbn [combine categorical_cols encode_loop bind].
  destruct (encode_field encs "Gender" (gender f)) as [g|] eqn:Hg; [|discriminate].
  destruct (encode_field encs "Married" (married f)) as [m|] eqn:Hm; [|discriminate].
  destruct (encode_field encs "Education" (education f)) as [e|] eqn:He; [|discriminate].
  destruct (encode_field encs "Self_Employed" (self_employed f)) as [s|] eqn:Hs; [|discriminate].
  destruct (encode_field encs "Property_Area" (property_area f)) as [p|] eqn:Hp; [|discriminate].
  cbn [bind].
  destruct (normalize_dependents (CStr (dependents f))) as [d|] eqn:Hd; [|discriminate].
  cbn [bind]. intros H; injection H as <-.
  exists g, m, e, s, p, d; repeat split; reflexivity.
Qed.

(** A pressed run whose frame builds and whose classifier answers renders
    this page. *)
Lemma run_pressed model encs f df c ps p1 :
  user_input_features encs f = Ok df ->
  predict model df = Ok c ->
  predict_proba model df = Ok ps ->
  nth_error ps 1 = Some p1 ->
  run (app_script (Ok model) (Ok encs) f true) =
  Finished
    ([ETitle "Loan Eligibility Prediction System";
      EHeader "User Input Features";
      ESubheader "Prediction Result";
      (if Z.eqb c 1 then EApproved (p1 * 100)%float else ENotApproved (p1 * 100)%float);
      ESubheader "Loan Distribution Insights";
      EPlot ["Applicant Income"; "Coapplicant Income"; "Loan Amount"]
        [Some (applicant_income f); Some (coapplicant_income f); Some (loan_amount f)];
      ESubheader "User Input Summary";
      ETable df;
      ESubheader "Additional Insights"] ++ advisories f).
Proof.
  intros Hu Hc Hps Hp1.
  pose proof (user_input_features_shape _ _ _ Hu)
    as (g & m & e & s & p & d & _ & _ & _ & _ & _ & _ & Hdf).
  unfold run, app_script.
  cbv [mbind mret page_bind page_ret try_except lift emit raise].
  rewrite Hu. cbv [prediction_body mbind mret page_bind page_ret lift emit].
  rewrite Hc, Hps. unfold py_index; rewrite Hp1.
  subst df. unfold insights, advisories, df_get.
  cbv [mbind mret page_bind page_ret lift emit frame find fst snd cell_eq_Z cell_gt_Z].
  cbn [String.eqb Ascii.eqb Bool.eqb bind].
  destruct (Z.eqb (credit_history f) 1), (Z.ltb 8000 (applicant_income f)),
    (Z.ltb 300 (loan_amount f)); reflexivity.
Qed.

Lemma flags_run_pressed model encs f df c ps p1 :
  user_input_features encs f = Ok df ->
  predict model df = Ok c ->
  predict_proba model df = Ok ps ->
  nth_error ps 1 = Some p1 ->
  flags (page_of (run (app_script (Ok model) (Ok encs) f true))) = advisories f.
Proof.
  intros Hu Hc Hps Hp1. rewrite (run_pressed _ _ _ _ _ _ _ Hu Hc Hps Hp1).
  unfold flags, advisories; cbn [page_of List.filter app is_flag].
  destruct (Z.eqb c 1), (Z.eqb (credit_history f) 1), (Z.ltb 8000 (applicant_income f)),
    (Z.ltb 300 (loan_amount f)); reflexivity.
Qed.

Lemma In_write_flags s page : In (EWrite s) page <-> In (EWrite s) (flags page).
Proof. unfold flags. rewrite filter_In. simpl. split; [intros H; split; auto | intros [H _]; exact H]. Qed.

Lemma insights_frame g m d e s f p :
  fst (insights (frame g m d e s f p) []) = advisories f.
Proof.
  unfold insights, advisories, df_get.
  cbv [mbind mret page_bind page_ret lift emit frame find fst snd cell_eq_Z cell_gt_Z].
  cbn [String.eqb Ascii.eqb Bool.eqb bind].
  destruct (Z.eqb (credit_history f) 1), (Z.ltb 8000 (applicant_income f)),
    (Z.ltb 300 (loan_amount f)); reflexivity.
Qed.



Lemma form_credit f : form_ok f -> credit_history f = 1%Z \/ credit_history f = 0%Z.
Proof. intros (_ & _ & _ & _ & _ & _ & _ & _ & _ & H & _). simpl in H. destruct H as [H|[H|[]]]; auto. Qed.

End AppFacts.

Module ForestFacts.
Import App.
















End ForestFacts.

Module TrainerFacts.
Import Trainer.

Lemma In_distinct x l : In x (distinct l) <-> In x l.
Proof.
  induction l as [|y r IH]; [reflexivity|].
  cbn [distinct In]. rewrite filter_In, IH.
  destruct (cell_eqb y x) eqn:E.
  - apply cell_eqb_eq in E. subst. tauto.
  - assert (y <> x) by (intros <-; rewrite (proj2 (cell_eqb_eq y y) eq_refl) in E; discriminate).
    simpl. intuition.
Qed.

Lemma count_of_notin v l : ~ In v l -> count_of v l = 0%nat.
Proof.
  unfold count_of. induction l as [|y r IH]; intros Hn; [reflexivity|].
  simpl. destruct (cell_eqb v y) eqn:E.
  - apply cell_eqb_eq in E. subst. exfalso. apply Hn. left. reflexivity.
  - apply IH. intros H. apply Hn. right. exact H.
Qed.

Lemma count_of_pos_in v l : (0 < count_of v l)%nat -> In v l.
Proof.
  unfold count_of. induction l as [|y r IH]; simpl; [lia|].
  destruct (cell_eqb v y) eqn:E; intros H.
  - apply cell_eqb_eq in E. left. congruence.
  - right. apply IH. exact H.
Qed.

Lemma count_le_max v obs ds :
  In v ds -> (count_of v obs <= fold_right (fun w m => Nat.max (count_of w obs) m) 0 ds)%nat.
Proof.
  induction ds as [|w r IH]; [intros []|].
  intros [<-|H]; simpl; [lia|]. specialize (IH H). lia.
Qed.

Lemma py_min_from_in x r m : py_min_from x r = Ok m -> m = x \/ In m r.
Proof.
  revert x. induction r as [|y r IH]; intros x H.
  - injection H as <-. left. reflexivity.
  - cbn [py_min_from] in H. destruct (cell_lt y x) as [lt|]; [|discriminate].
    cbn [bind] in H. apply IH in H.
    destruct lt; simpl in H; simpl; destruct H as [->|H]; auto.
Qed.

(** The imputation statistic is an observed value of the column, and no
    observed value is more frequent. *)
Lemma most_frequent_mode col m :
  most_frequent col = Ok (Some m) ->
  In m (observed col) /\
  forall v, (count_of v (observed col) <= count_of m (observed col))%nat.
Proof.
  unfold most_frequent.
  set (obs := observed col).
  destruct (distinct obs) as [|d0 ds] eqn:Hds; [discriminate|].
  set (maxc := fold_right (fun v m => Nat.max (count_of v obs) m) 0%nat (d0 :: ds)).
  destruct (List.filter (fun v => Nat.eqb (count_of v obs) maxc) (d0 :: ds)) as [|x r] eqn:Hf;
    [discriminate|].
  destruct (py_min_from x r) as [m'|] eqn:Hm; [|discriminate].
  cbn [bind]. intros H. injection H as <-.
  assert (Hin : In m' (List.filter (fun v => Nat.eqb (count_of v obs) maxc) (d0 :: ds))).
  { rewrite Hf. apply py_min_from_in in Hm. simpl. destruct Hm as [->|Hm]; auto. }
  apply filter_In in Hin as [Hin Hc]. apply Nat.eqb_eq in Hc.
  split.
  - apply In_distinct. rewrite Hds. exact Hin.
  - intros v. rewrite Hc.
    destruct (count_of v obs) as [|n] eqn:Hv; [lia|].
    assert (Hv' : In v obs) by (apply count_of_pos_in; rewrite Hv; lia).
    rewrite <- Hv.
    apply count_le_max. rewrite <- Hds. apply In_distinct. exact Hv'.
Qed.

Lemma map_result_forall2 {A B} (f : A -> Result B) l l' :
  map_result f l = Ok l' -> Forall2 (fun a b => f a = Ok b) l l'.
Proof.
  revert l'. induction l as [|x r IH]; intros l' H.
  - injection H as <-. constructor.
  - cbn [map_result] in H. destruct (f x) as [y|] eqn:Hx; [|discriminate].
    cbn [bind] in H. destruct (map_result f r) as [ys|] eqn:Hr; [|discriminate].
    cbn [bind] in H. injection H as <-. constructor; [exact Hx | apply IH; reflexivity].
Qed.

(** Each column comes out of [impute] with its missing cells replaced by
    the column's statistic. *)
Lemma impute_columns tbl tbl' :
  impute tbl = Ok tbl' ->
  Forall2 (fun c c' => fst c' = fst c /\
             exists m, most_frequent (snd c) = Ok (Some m) /\
               snd c' = map (fun o => match o with Some v => Some v | None => Some m end) (snd c))
          tbl tbl'.
Proof.
  unfold impute.
  destruct (map_result (fun c => most_frequent (snd c)) tbl) as [stats|] eqn:Hs; [|discriminate].
  cbn [bind].
  destruct (existsb _ stats) eqn:He; [discriminate|].
  intros H. injection H as <-.
  apply map_result_forall2 in Hs.
  induction Hs as [|[name col] st rest strest Hst Hrest IH]; [constructor|].
  cbn [existsb] in He. apply orb_false_iff in He as [Hst_some He].
  destruct st as [m|]; [|discriminate].
  cbn [combine map]. constructor; [|exact (IH He)].
  split; [reflexivity|]. exists m. split; [exact Hst | reflexivity].
Qed.

Lemma encode_columns_keys cols tbl E tbl' E' :
  encode_columns cols tbl E = Ok (tbl', E') ->
  forall k, is_Some (E' !! k) <-> In k cols \/ is_Some (E !! k).
Proof.
  revert tbl E. induction cols as [|col rest IH]; intros tbl E H k.
  - injection H as <- <-. simpl. tauto.
  - cbn [encode_columns] in H.
    destruct (get_column col tbl) as [column|]; [|discriminate]. cbn [bind] in H.
    destruct (le_fit_transform column) as [[le codes]|]; [|discriminate]. cbn [bind] in H.
    rewrite (IH _ _ H k). rewrite lookup_insert. cbn [In].
    destruct (decide (col = k)) as [->|Hne].
    + split; [intros _; left; left; reflexivity | intros _; right; eexists; reflexivity].
    + split.
      * intros [Hk|Hk]; [left; right; exact Hk | right; exact Hk].
      * intros [[Hk|Hk]|Hk]; [congruence | left; exact Hk | right; exact Hk].
Qed.

End TrainerFacts.

Module AppClaims.
Import App AppFacts ForestFacts Samples.

(** C1 (code_bug): a Self_Employed value the fitted encoder never saw
    makes [user_input_features] raise at line 58, outside the [try] of the
    prediction handler: the run ends with the exception uncaught, pressed
    or not, and no "Error during prediction" message is rendered. *)
Theorem unseen_label_escapes_uncaught :
  form_ok sample_form_self_employed /\
  sample_encoders !! "Self_Employed" = Some {| classes_ := [CStr "No"] |} /\
  run (app_script (Ok (forest_classifier small_forest)) (Ok sample_encoders)
         sample_form_self_employed true) =
    Uncaught [ETitle "Loan Eligibility Prediction System"; EHeader "User Input Features"]
      (ValueError "y contains previously unseen labels") /\
  run (app_script (Ok (forest_classifier small_forest)) (Ok sample_encoders)
         sample_form_self_employed false) =
    Uncaught [ETitle "Loan Eligibility Prediction System"; EHeader "User Input Features"]
      (ValueError "y contains previously unseen labels").
Proof.
  split; [|split; [vm_compute; reflexivity | split; vm_compute; reflexivity]].
  unfold form_ok; simpl; repeat split; try lia; tauto.
Qed.

(** C2: for each categorical field, a missing encoder gives the code 0
    without failing; a registered encoder gives its code for the label. *)
Theorem missing_encoder_defaults_to_zero encs f df col v :
  user_input_features encs f = Ok df ->
  In (col, v) (combine categorical_cols
                 [gender f; married f; education f; self_employed f; property_area f]) ->
  (encs !! col = None -> encode_field encs col v = Ok 0%Z /\ df_get df col = Ok (Some 0%Z)) /\
  (forall le, encs !! col = Some le ->
     exists c, le_transform le (CStr v) = Ok c /\ df_get df col = Ok (Some c)).
Proof.
  intros Hu Hin.
  pose proof (user_input_features_shape _ _ _ Hu)
    as (g & m & e & s & p & d & Hg & Hm & He & Hs & Hp & _ & ->).
  simpl in Hin.
  destruct Hin as [Hin|[Hin|[Hin|[Hin|[Hin|[]]]]]]; injection Hin as <- <-;
    [revert Hg | revert Hm | revert He | revert Hs | revert Hp];
    unfold encode_field; intros Hc; split;
    [ intros Hn; rewrite Hn in Hc |- *; injection Hc as <-; split; reflexivity
    | intros le Hle; rewrite Hle in Hc; eexists; split; [exact Hc | reflexivity]
    | intros Hn; rewrite Hn in Hc |- *; injection Hc as <-; split; reflexivity
    | intros le Hle; rewrite Hle in Hc; eexists; split; [exact Hc | reflexivity]
    | intros Hn; rewrite Hn in Hc |- *; injection Hc as <-; split; reflexivity
    | intros le Hle; rewrite Hle in Hc; eexists; split; [exact Hc | reflexivity]
    | intros Hn; rewrite Hn in Hc |- *; injection Hc as <-; split; reflexivity
    | intros le Hle; rewrite Hle in Hc; eexists; split; [exact Hc | reflexivity]
    | intros Hn; rewrite Hn in Hc |- *; injection Hc as <-; split; reflexivity
    | intros le Hle; rewrite Hle in Hc; eexists; split; [exact Hc | reflexivity] ].
Qed.

Lemma missing_encoder_defaults_to_zero_witness :
  encode_field encoders_without_gender "Gender" "Male" = Ok 0%Z /\
  df_get frame_without_gender "Gender" = Ok (Some 0%Z).
Proof.
  apply (missing_encoder_defaults_to_zero encoders_without_gender sample_form
           frame_without_gender "Gender" "Male").
  - vm_compute; reflexivity.
  - simpl; left; reflexivity.
  - vm_compute; reflexivity.
Defined.

(** C3: the frame handed to the classifier has the columns of
    [feature_order], in that order, each holding its field's value. *)
Theorem feature_vector_in_schema_order encs f df :
  user_input_features encs f = Ok df ->
  map fst df = feature_order /\
  exists g m e s p d,
    encode_field encs "Gender" (gender f) = Ok g /\
    encode_field encs "Married" (married f) = Ok m /\
    encode_field encs "Education" (education f) = Ok e /\
    encode_field encs "Self_Employed" (self_employed f) = Ok s /\
    encode_field encs "Property_Area" (property_area f) = Ok p /\
    normalize_dependents (CStr (dependents f)) = Ok d /\
    df = frame g m d e s f p.
Proof.
  intros Hu.
  pose proof (user_input_features_shape _ _ _ Hu)
    as (g & m & e & s & p & d & Hg & Hm & He & Hs & Hp & Hd & Hdf).
  split; [subst df; reflexivity|].
  exists g, m, e, s, p, d; tauto.
Qed.

Lemma feature_vector_in_schema_order_witness :
  map fst sample_frame = feature_order.
Proof.
  apply (proj1 (feature_vector_in_schema_order sample_encoders sample_form sample_frame
                  ltac:(vm_compute; reflexivity))).
Defined.
(** C5: on a submitted row, exactly one of the two credit-history
    messages is written: the good one iff Credit_History is 1, the poor
    one iff it is 0. *)
Theorem credit_flags_exclusive model encs f df c ps p1 :
  form_ok f ->
  user_input_features encs f = Ok df ->
  predict model df = Ok c ->
  predict_proba model df = Ok ps ->
  nth_error ps 1 = Some p1 ->
  let page := page_of (run (app_script (Ok model) (Ok encs) f true)) in
  (In (EWrite good_credit_msg) page <-> credit_history f = 1%Z) /\
  (In (EWrite poor_credit_msg) page <-> credit_history f = 0%Z) /\
  ~ (In (EWrite good_credit_msg) page /\ In (EWrite poor_credit_msg) page).
Proof.
  intros Hf Hu Hc Hps Hp1 page. unfold page.
  rewrite !(In_write_flags _ (page_of _)), (flags_run_pressed _ _ _ _ _ _ _ Hu Hc Hps Hp1).
  unfold advisories.
  destruct (form_credit f Hf) as [Hch|Hch]; rewrite Hch; cbn [Z.eqb Pos.eqb];
    destruct (Z.ltb 8000 (applicant_income f)), (Z.ltb 300 (loan_amount f));
    cbn [app In];
    unfold good_credit_msg, poor_credit_msg, high_income_msg, large_loan_msg;
    intuition congruence.
Qed.

Lemma credit_flags_exclusive_witness :
  let page := page_of (run (app_script (Ok (forest_classifier small_forest))
                              (Ok sample_encoders) sample_form true)) in
  (In (EWrite good_credit_msg) page <-> credit_history sample_form = 1%Z) /\
  (In (EWrite poor_credit_msg) page <-> credit_history sample_form = 0%Z) /\
  ~ (In (EWrite good_credit_msg) page /\ In (EWrite poor_credit_msg) page).
Proof.
  apply (credit_flags_exclusive (forest_classifier small_forest) sample_encoders
           sample_form sample_frame 0%Z small_forest_proba (nth 1 small_forest_proba 0%float)).
  - unfold form_ok; simpl; repeat split; try lia; tauto.
  - vm_compute; reflexivity.
  - vm_compute; reflexivity.
  - vm_compute; reflexivity.
  - vm_compute; reflexivity.
Defined.

(** C6: the high-income message is written iff ApplicantIncome > 8000,
    the large-loan message iff LoanAmount > 300, and the messages written
    are [insights] of the row: a function of the row alone, whatever the
    classifier, the encoders or the earlier runs. *)
Theorem advisory_flags_of_row model encs f df c ps p1 :
  user_input_features encs f = Ok df ->
  predict model df = Ok c ->
  predict_proba model df = Ok ps ->
  nth_error ps 1 = Some p1 ->
  let page := page_of (run (app_script (Ok model) (Ok encs) f true)) in
  (In (EWrite high_income_msg) page <-> (8000 < applicant_income f)%Z) /\
  (In (EWrite large_loan_msg) page <-> (300 < loan_amount f)%Z) /\
  flags page = fst (insights df []).
Proof.
  intros Hu Hc Hps Hp1 page. unfold page.
  pose proof (user_input_features_shape _ _ _ Hu)
    as (g & m & e & s & p & d & _ & _ & _ & _ & _ & _ & Hdf).
  rewrite !(In_write_flags _ (page_of _)), (flags_run_pressed _ _ _ _ _ _ _ Hu Hc Hps Hp1).
  rewrite Hdf, insights_frame. split; [|split; [|reflexivity]];
  unfold advisories;
  destruct (Z.ltb_spec 8000 (applicant_income f)), (Z.ltb_spec 300 (loan_amount f)),
    (Z.eqb (credit_history f) 1); cbn [app In];
  unfold good_credit_msg, poor_credit_msg, high_income_msg, large_loan_msg;
  intuition (try congruence; try lia).
Qed.

Lemma advisory_flags_of_row_witness :
  let page := page_of (run (app_script (Ok (forest_classifier small_forest))
                              (Ok sample_encoders) sample_form true)) in
  (In (EWrite high_income_msg) page <-> (8000 < applicant_income sample_form)%Z) /\
  (In (EWrite large_loan_msg) page <-> (300 < loan_amount sample_form)%Z) /\
  flags page = fst (insights sample_frame []).
Proof.
  apply (advisory_flags_of_row (forest_classifier small_forest) sample_encoders
           sample_form sample_frame 0%Z small_forest_proba (nth 1 small_forest_proba 0%float)).
  - vm_compute; reflexivity.
  - vm_compute; reflexivity.
  - vm_compute; reflexivity.
  - vm_compute; reflexivity.
Defined.

(** C7: line 45 maps "3+" to 3 and "0", "1", "2" to their integers; an
    int is its own normalization, so normalizing a result again (3 in
    particular) gives it back; the trainer's [df.replace({'3+': 3})] is
    idempotent too. *)
Theorem dependents_normalization_idempotent :
  normalize_dependents (CStr "3+") = Ok 3%Z /\
  normalize_dependents (CStr "0") = Ok 0%Z /\
  normalize_dependents (CStr "1") = Ok 1%Z /\
  normalize_dependents (CStr "2") = Ok 2%Z /\
  normalize_dependents (CNum 3) = Ok 3%Z /\
  (forall z, normalize_dependents (CNum z) = Ok z) /\
  (forall c, Trainer.replace_cell (Trainer.replace_cell c) = Trainer.replace_cell c).
Proof.
  repeat split; try reflexivity.
  intros c. unfold Trainer.replace_cell.
  destruct (cell_eqb c (CStr "3+")) eqn:E; [reflexivity|]. rewrite E. reflexivity.
Qed.

(** C9: when either [joblib.load] fails, the run writes the error and
    stops: nothing else is rendered, whatever the widgets and the button. *)
Theorem load_failure_stops_run e le m f pressed :
  run (app_script (Err e) le f pressed) = Stopped [EErrorExn "Error loading model: " e] /\
  run (app_script (Ok m) (Err e) f pressed) = Stopped [EErrorExn "Error loading model: " e].
Proof. split; reflexivity. Qed.


End AppClaims.

Module TrainerClaims.
Import TrainerFacts Samples.

(** C8: [impute] fills each column independently: a missing cell gets
    the column's most frequent observed value, an observed cell is kept,
    and no cell of the result is missing. *)
Theorem impute_fills_with_mode tbl tbl' :
  Trainer.impute tbl = Ok tbl' ->
  Forall2 (fun c c' =>
             fst c' = fst c /\
             exists m,
               In m (Trainer.observed (snd c)) /\
               (forall v, (Trainer.count_of v (Trainer.observed (snd c))
                           <= Trainer.count_of m (Trainer.observed (snd c)))%nat) /\
               snd c' = map (fun o => match o with Some v => Some v | None => Some m end) (snd c))
          tbl tbl' /\
  (forall name col o, In (name, col) tbl' -> In o col -> o <> None).
Proof.
  intros H. pose proof (impute_columns _ _ H) as Hcols. clear H. split.
  - induction Hcols as [|c c' rest rest' [Hn (m & Hm & Hc')] _ IH]; constructor; [|exact IH].
    split; [exact Hn|]. exists m.
    destruct (most_frequent_mode _ _ Hm) as [Hin Hmax].
    split; [exact Hin|]. split; [exact Hmax | exact Hc'].
  - induction Hcols as [|c c' rest rest' [Hn (m & Hm & Hc')] _ IH];
      intros name col o Hin Ho; [destruct Hin|].
    destruct Hin as [Heq|Hin]; [|exact (IH name col o Hin Ho)].
    subst c'. cbn [snd] in Hc'. rewrite Hc' in Ho. apply in_map_iff in Ho as (x & <- & _).
    destruct x; discriminate.
Qed.

Lemma impute_fills_with_mode_witness :
  Forall2 (fun c c' =>
             fst c' = fst c /\
             exists m,
               In m (Trainer.observed (snd c)) /\
               (forall v, (Trainer.count_of v (Trainer.observed (snd c))
                           <= Trainer.count_of m (Trainer.observed (snd c)))%nat) /\
               snd c' = map (fun o => match o with Some v => Some v | None => Some m end) (snd c))
          sample_raw sample_imputed /\
  (forall name col o, In (name, col) sample_imputed -> In o col -> o <> None).
Proof.
  apply (impute_fills_with_mode sample_raw sample_imputed).
  vm_compute; reflexivity.
Defined.

(** C10: the trainer's encoder set has exactly the six keys Gender,
    Married, Education, Self_Employed, Property_Area and Loan_Status (so
    none for Dependents), and the predictor's result depends on the
    encoder set only through the five categorical feature keys. *)
Theorem trained_encoder_keys raw tbl encs :
  Trainer.train raw = Ok (tbl, encs) ->
  (forall k, is_Some (encs !! k) <-> In k Trainer.encoded_cols) /\
  encs !! "Dependents" = None /\
  (forall encs1 encs2 f,
     (forall k, In k App.categorical_cols -> encs1 !! k = encs2 !! k) ->
     App.user_input_features encs1 f = App.user_input_features encs2 f).
Proof.
  intros H. unfold Trainer.train in H.
  destruct (Trainer.drop_column "Loan_ID" raw) as [df|]; [|discriminate]. cbn [bind] in H.
  destruct (Trainer.impute df) as [df'|]; [|discriminate]. cbn [bind] in H.
  pose proof (encode_columns_keys _ _ _ _ _ H) as Hk.
  assert (Hkeys : forall k, is_Some (encs !! k) <-> In k Trainer.encoded_cols).
  { intros k. rewrite Hk, lookup_empty. split; [intros [Hin|[? Hn]]; [exact Hin | discriminate] | tauto]. }
  split; [exact Hkeys|]. split.
  - destruct (encs !! "Dependents") eqn:E; [|reflexivity].
    exfalso. assert (Hs : is_Some (encs !! "Dependents")) by (rewrite E; eexists; reflexivity).
    apply Hkeys in Hs. simpl in Hs. intuition discriminate.
  - intros encs1 encs2 f Hagree.
    unfold App.user_input_features; cbn [combine App.categorical_cols App.encode_loop].
    unfold App.encode_field.
    rewrite (Hagree "Gender"), (Hagree "Married"), (Hagree "Education"),
      (Hagree "Self_Employed"), (Hagree "Property_Area") by (simpl; tauto).
    reflexivity.
Qed.

Lemma trained_encoder_keys_witness :
  (forall k, is_Some (sample_encoders !! k) <-> In k Trainer.encoded_cols) /\
  sample_encoders !! "Dependents" = None /\
  (forall encs1 encs2 f,
     (forall k, In k App.categorical_cols -> encs1 !! k = encs2 !! k) ->
     App.user_input_features encs1 f = App.user_input_features encs2 f).
Proof.
  apply (trained_encoder_keys sample_raw sample_trained_table sample_encoders).
  vm_compute; reflexivity.
Defined.

End TrainerClaims.

(** * Further properties of the two scripts *)

Module AppExtras.
Import App AppFacts Samples.

Lemma index_of_nth v l i : index_of v l = Some i -> nth_error l i = Some v.
Proof.
  revert i. induction l as [|x r IH]; intros i H; [discriminate|].
  cbn [index_of] in H. destruct (cell_eqb x v) eqn:E.
  - injection H as <-. apply cell_eqb_eq in E. subst. reflexivity.
  - destruct (index_of v r) as [j|] eqn:Hj; [|discriminate].
    injection H as <-. apply IH. reflexivity.
Qed.

Lemma index_of_In v l : In v l <-> exists i, index_of v l = Some i.
Proof.
  induction l as [|x r IH]; cbn [index_of In].
  - split; [intros []|intros [i Hi]; discriminate].
  - destruct (cell_eqb x v) eqn:E.
    + apply cell_eqb_eq in E. split; [intros _; eexists; reflexivity | intros _; left; exact E].
    + split.
      * intros [Hx|Hin]; [subst; rewrite (proj2 (cell_eqb_eq v v) eq_refl) in E; discriminate|].
        destruct (proj1 IH Hin) as [i Hi]. rewrite Hi. eexists; reflexivity.
      * intros [i Hi]. destruct (index_of v r) as [j|] eqn:Hj; [|discriminate].
        right. apply IH. exists j. reflexivity.
Qed.

Lemma encode_field_err encs col v e :
  encode_field encs col v = Err e -> e = ValueError "y contains previously unseen labels".
Proof.
  unfold encode_field, le_transform.
  destruct (encs !! col) as [le|]; [|discriminate].
  destruct (index_of (CStr v) (classes_ le)); [discriminate|].
  intros H. injection H as <-. reflexivity.
Qed.

Lemma encode_loop_err encs pairs data e :
  encode_loop encs pairs data = Err e -> e = ValueError "y contains previously unseen labels".
Proof.
  revert data. induction pairs as [|[col v] rest IH]; intros data H; [discriminate|].
  cbn [encode_loop] in H. destruct (encode_field encs col v) as [c|e'] eqn:Hc.
  - exact (IH _ H).
  - cbn [bind] in H. injection H as <-. exact (encode_field_err _ _ _ _ Hc).
Qed.

Lemma encode_loop_fields encs pairs data d :
  encode_loop encs pairs data = Ok d ->
  forall col v, In (col, v) pairs -> exists c, encode_field encs col v = Ok c.
Proof.
  revert data. induction pairs as [|[col0 v0] rest IH]; intros data H col v Hin; [destruct Hin|].
  cbn [encode_loop] in H. destruct (encode_field encs col0 v0) as [c|e] eqn:Hc; [|discriminate].
  destruct Hin as [Heq|Hin].
  - injection Heq as <- <-. exists c. exact Hc.
  - exact (IH _ H col v Hin).
Qed.

Lemma encode_loop_total encs pairs data :
  (forall col v, In (col, v) pairs -> exists c, encode_field encs col v = Ok c) ->
  exists d, encode_loop encs pairs data = Ok d.
Proof.
  revert data. induction pairs as [|[col0 v0] rest IH]; intros data H.
  - exists data. reflexivity.
  - destruct (H col0 v0 (or_introl eq_refl)) as [c Hc].
    cbn [encode_loop]. rewrite Hc. cbn [bind]. apply IH.
    intros col v Hin. apply H. right. exact Hin.
Qed.

(** Without the button pressed, a run whose frame builds renders the
    title and the header and nothing else: the classifier, whatever it
    is, is never called. *)
Theorem unpressed_run_never_predicts model encs f df :
  user_input_features encs f = Ok df ->
  run (app_script (Ok model) (Ok encs) f false) =
  Finished [ETitle "Loan Eligibility Prediction System"; EHeader "User Input Features"].
Proof.
  intros Hu. unfold run, app_script.
  cbv [mbind mret page_bind page_ret try_except lift emit raise].
  rewrite Hu. reflexivity.
Qed.

Lemma unpressed_run_never_predicts_witness :
  run (app_script (Ok mismatched_classifier) (Ok sample_encoders) sample_form false) =
  Finished [ETitle "Loan Eligibility Prediction System"; EHeader "User Input Features"].
Proof.
  apply (unpressed_run_never_predicts mismatched_classifier sample_encoders sample_form sample_frame).
  vm_compute; reflexivity.
Defined.

(** An exception raised by [predict] or [predict_proba] is caught by the
    handler of line 98: the run finishes with the title, the header and
    the "Error during prediction" message only. *)
Theorem classifier_error_reported model encs f df e :
  user_input_features encs f = Ok df ->
  (predict model df = Err e \/
   exists c, predict model df = Ok c /\ predict_proba model df = Err e) ->
  run (app_script (Ok model) (Ok encs) f true) =
  Finished [ETitle "Loan Eligibility Prediction System"; EHeader "User Input Features";
            EErrorExn "Error during prediction: " e].
Proof.
  intros Hu He. unfold run, app_script.
  cbv [mbind mret page_bind page_ret try_except lift emit raise].
  rewrite Hu. cbv [prediction_body mbind mret page_bind page_ret lift emit].
  destruct He as [Hp | (c & Hc & Hps)].
  - rewrite Hp. reflexivity.
  - rewrite Hc, Hps. reflexivity.
Qed.

Lemma classifier_error_reported_witness :
  run (app_script (Ok mismatched_classifier) (Ok sample_encoders) sample_form true) =
  Finished [ETitle "Loan Eligibility Prediction System"; EHeader "User Input Features";
            EErrorExn "Error during prediction: "
              (ValueError "X has 11 features, but RandomForestClassifier is expecting 12 features as input.")].
Proof.
  apply (classifier_error_reported mismatched_classifier sample_encoders sample_form sample_frame).
  - vm_compute; reflexivity.
  - left; reflexivity.
Defined.

(** A classifier whose [predict_proba] row has fewer than two entries (a
    model fitted on one class only) makes [predict_proba(...)[0][1]]
    raise [IndexError]; the handler reports it and nothing of the result
    is rendered. *)
Theorem short_proba_row_reported model encs f df c ps :
  user_input_features encs f = Ok df ->
  predict model df = Ok c ->
  predict_proba model df = Ok ps ->
  (length ps <= 1)%nat ->
  run (app_script (Ok model) (Ok encs) f true) =
  Finished [ETitle "Loan Eligibility Prediction System"; EHeader "User Input Features";
            EErrorExn "Error during prediction: " IndexError].
Proof.
  intros Hu Hc Hps Hlen. unfold run, app_script.
  cbv [mbind mret page_bind page_ret try_except lift emit raise].
  rewrite Hu. cbv [prediction_body mbind mret page_bind page_ret lift emit].
  rewrite Hc, Hps. unfold py_index.
  rewrite (proj2 (nth_error_None ps 1) Hlen). reflexivity.
Qed.

Lemma short_proba_row_reported_witness :
  run (app_script (Ok single_class_classifier) (Ok sample_encoders) sample_form true) =
  Finished [ETitle "Loan Eligibility Prediction System"; EHeader "User Input Features";
            EErrorExn "Error during prediction: " IndexError].
Proof.
  apply (short_proba_row_reported single_class_classifier sample_encoders sample_form
           sample_frame 0%Z [1%float]).
  - vm_compute; reflexivity.
  - reflexivity.
  - reflexivity.
  - simpl; lia.
Defined.

(** A categorical field whose registered encoder does not know the
    selected label makes [user_input_features] raise [ValueError] at
    line 58, outside every [try]: with any classifier, pressed or not,
    the run ends uncaught after the title and the header. *)
Theorem unseen_label_uncaught encs f model pressed col v le :
  In (col, v) (combine categorical_cols
                 [gender f; married f; education f; self_employed f; property_area f]) ->
  encs !! col = Some le ->
  ~ In (CStr v) (classes_ le) ->
  user_input_features encs f = Err (ValueError "y contains previously unseen labels") /\
  run (app_script (Ok model) (Ok encs) f pressed) =
  Uncaught [ETitle "Loan Eligibility Prediction System"; EHeader "User Input Features"]
    (ValueError "y contains previously unseen labels").
Proof.
  intros Hin Hle Hnot.
  assert (Hu : user_input_features encs f = Err (ValueError "y contains previously unseen labels")).
  { unfold user_input_features.
    destruct (encode_loop encs _ ∅) as [d|e] eqn:Hl.
    - exfalso. destruct (encode_loop_fields _ _ _ _ Hl col v Hin) as [c Hc].
      unfold encode_field, le_transform in Hc. rewrite Hle in Hc.
      destruct (index_of (CStr v) (classes_ le)) as [i|] eqn:Hi; [|discriminate].
      apply Hnot. apply index_of_In. exists i. exact Hi.
    - cbn [bind]. rewrite (encode_loop_err _ _ _ _ Hl). reflexivity. }
  split; [exact Hu|].
  unfold run, app_script.
  cbv [mbind mret page_bind page_ret try_except lift emit raise].
  rewrite Hu. reflexivity.
Qed.

Lemma unseen_label_uncaught_witness :
  user_input_features sample_encoders sample_form_self_employed = Err (ValueError "y contains previously unseen labels") /\
  run (app_script (Ok mismatched_classifier) (Ok sample_encoders) sample_form_self_employed false) =
  Uncaught [ETitle "Loan Eligibility Prediction System"; EHeader "User Input Features"]
    (ValueError "y contains previously unseen labels").
Proof.
  apply (unseen_label_uncaught sample_encoders sample_form_self_employed mismatched_classifier
           false "Self_Employed" "Yes" {| classes_ := [CStr "No"] |}).
  - simpl; tauto.
  - vm_compute; reflexivity.
  - simpl; intros [H|[]]; discriminate.
Defined.

(** On widget values the form allows, [user_input_features] succeeds as
    soon as every registered categorical encoder knows the selected
    label; its Dependents value is then one of 0, 1, 2, 3. *)
Theorem user_input_features_succeeds encs f :
  form_ok f ->
  (forall col v le,
     In (col, v) (combine categorical_cols
                    [gender f; married f; education f; self_employed f; property_area f]) ->
     encs !! col = Some le -> In (CStr v) (classes_ le)) ->
  exists df d,
    user_input_features encs f = Ok df /\
    df_get df "Dependents" = Ok (Some d) /\ (0 <= d <= 3)%Z.
Proof.
  intros Hf Hknown.
  destruct (encode_loop_total encs
              (combine categorical_cols
                 [gender f; married f; education f; self_employed f; property_area f]) ∅)
    as [data Hl].
  { intros col v Hin. unfold encode_field.
    destruct (encs !! col) as [le|] eqn:Hle; [|eexists; reflexivity].
    destruct (proj1 (index_of_In _ _) (Hknown col v le Hin Hle)) as [i Hi].
    unfold le_transform. rewrite Hi. eexists; reflexivity. }
  destruct Hf as (_ & _ & Hdep & _).
  assert (Hd : exists d, normalize_dependents (CStr (dependents f)) = Ok d /\ (0 <= d <= 3)%Z).
  { simpl in Hdep. destruct Hdep as [H|[H|[H|[H|[]]]]]; rewrite <- H;
      [exists 0%Z | exists 1%Z | exists 2%Z | exists 3%Z]; (split; [reflexivity | lia]). }
  destruct Hd as (d & Hd & Hb).
  assert (Hu : exists df, user_input_features encs f = Ok df).
  { unfold user_input_features. rewrite Hl. cbn [bind]. rewrite Hd. cbn [bind].
    eexists; reflexivity. }
  destruct Hu as [df Hu]. exists df, d. split; [exact Hu|].
  pose proof (user_input_features_shape _ _ _ Hu)
    as (g & m & e & s & p & d' & _ & _ & _ & _ & _ & Hd' & ->).
  rewrite Hd in Hd'. injection Hd' as <-. split; [reflexivity | exact Hb].
Qed.

Lemma user_input_features_succeeds_witness :
  exists df d,
    user_input_features sample_encoders sample_form = Ok df /\
    df_get df "Dependents" = Ok (Some d) /\ (0 <= d <= 3)%Z.
Proof.
  apply (user_input_features_succeeds sample_encoders sample_form).
  - unfold form_ok; simpl; repeat split; try lia; tauto.
  - intros col v le Hin Hle. simpl in Hin.
    destruct Hin as [H|[H|[H|[H|[H|[]]]]]]; injection H as <- <-;
      vm_compute in Hle; injection Hle as <-; simpl; tauto.
Defined.

(** [le.transform([v])[0]] is the position of [v] in [classes_]: it
    succeeds exactly on the labels of [classes_], and the code indexes
    [classes_] back to the label. *)
Theorem le_transform_round_trip le v :
  (In v (classes_ le) <-> exists i, le_transform le v = Ok i) /\
  (forall i, le_transform le v = Ok i ->
     (0 <= i)%Z /\ nth_error (classes_ le) (Z.to_nat i) = Some v) /\
  (~ In v (classes_ le) -> le_transform le v = Err (ValueError "y contains previously unseen labels")).
Proof.
  unfold le_transform. split; [|split].
  - rewrite index_of_In. split.
    + intros [i Hi]. rewrite Hi. eexists; reflexivity.
    + intros [i Hi]. destruct (index_of v (classes_ le)) as [j|]; [|discriminate].
      exists j. reflexivity.
  - intros i Hi. destruct (index_of v (classes_ le)) as [j|] eqn:Hj; [|discriminate].
    injection Hi as <-. split; [lia|]. rewrite Nat2Z.id. apply index_of_nth. exact Hj.
  - intros Hn. destruct (index_of v (classes_ le)) as [j|] eqn:Hj; [|reflexivity].
    exfalso. apply Hn. apply index_of_In. exists j. exact Hj.
Qed.

End AppExtras.

Module ForestExtras.
Import App ForestFacts Samples.



End ForestExtras.

Module TrainerExtras.
Import Trainer TrainerFacts Samples.

(** *** Helpers *)

Lemma string_compare_refl s : String.compare s s = Eq.
Proof.
  pose proof (String.compare_antisym s s) as H.
  destruct (String.compare s s); simpl in H; congruence.
Qed.

Lemma cell_lt_irrefl x : cell_lt x x = Ok false.
Proof.
  destruct x as [s|z]; cbn [cell_lt].
  - unfold String.ltb. rewrite string_compare_refl. reflexivity.
  - rewrite Z.ltb_irrefl. reflexivity.
Qed.

Lemma cell_lt_trich x y :
  cell_lt x y = Ok false -> x <> y -> cell_lt y x = Ok true.
Proof.
  destruct x as [s|a], y as [t|b]; cbn [cell_lt]; intros H Hne; try discriminate;
    injection H as H.
  - unfold String.ltb in *. rewrite String.compare_antisym in H.
    destruct (String.compare t s) eqn:E; simpl in H; try discriminate; [|reflexivity].
    apply String.compare_eq_iff in E. subst. exfalso. exact (Hne eq_refl).
  - apply Z.ltb_ge in H. f_equal. apply Z.ltb_lt.
    destruct (Z.eq_dec a b) as [->|Hab]; [exfalso; exact (Hne eq_refl) | lia].
Qed.

Lemma py_min_from_const x r : (forall y, In y r -> y = x) -> py_min_from x r = Ok x.
Proof.
  induction r as [|y r IH]; intros H; [reflexivity|].
  cbn [py_min_from]. rewrite (H y (or_introl eq_refl)), cell_lt_irrefl. cbn [bind].
  apply IH. intros z Hz. apply H. right. exact Hz.
Qed.

Lemma observed_some x r : observed (Some x :: r) = x :: observed r.
Proof. reflexivity. Qed.

Lemma observed_none r : observed (None :: r) = observed r.
Proof. reflexivity. Qed.

Lemma count_of_cons v x l :
  count_of v (x :: l) = ((if cell_eqb v x then 1 else 0) + count_of v l)%nat.
Proof. unfold count_of. simpl. destruct (cell_eqb v x); reflexivity. Qed.

Lemma count_fill v m (col : list (option cell)) :
  count_of v (observed (map (fun o => match o with Some v => Some v | None => Some m end) col)) =
  (count_of v (observed col) +
   if cell_eqb v m
   then length (List.filter (fun o => match o with Some _ => false | None => true end) col)
   else 0)%nat.
Proof.
  induction col as [|o r IH]; [simpl; destruct (cell_eqb v m); reflexivity|].
  destruct o as [x|]; cbn [map List.filter]; rewrite ?observed_some, ?observed_none.
  - rewrite !count_of_cons, IH. lia.
  - rewrite count_of_cons, IH. cbn [length]. destruct (cell_eqb v m); lia.
Qed.

Lemma fold_max_le (obs ds : list cell) (B : nat) :
  (forall w, In w ds -> (count_of w obs <= B)%nat) ->
  (fold_right (fun w m => Nat.max (count_of w obs) m) 0 ds <= B)%nat.
Proof.
  induction ds as [|w r IH]; intros H; simpl; [lia|].
  specialize (H w (or_introl eq_refl)) as Hw.
  assert (Hr : (fold_right (fun w m => Nat.max (count_of w obs) m) 0 r <= B)%nat)
    by (apply IH; intros w' Hw'; apply H; right; exact Hw').
  lia.
Qed.

Lemma map_fill_complete (m : cell) (col : list (option cell)) :
  Forall (fun o => o <> None) col ->
  map (fun o => match o with Some v => Some v | None => Some m end) col = col.
Proof.
  induction 1 as [|o r Ho _ IH]; [reflexivity|].
  cbn [map]. rewrite IH. destruct o; [reflexivity | congruence].
Qed.

Lemma forallb_some_false (col : list (option cell)) :
  forallb (fun o => match o with Some _ => true | None => false end) col = false ->
  (0 < length (List.filter (fun o => match o with Some _ => false | None => true end) col))%nat.
Proof.
  induction col as [|o r IH]; [discriminate|].
  destruct o; cbn [forallb List.filter length]; [|lia]. apply IH.
Qed.

Lemma forallb_some_true (col : list (option cell)) :
  forallb (fun o => match o with Some _ => true | None => false end) col = true ->
  Forall (fun o => o <> None) col.
Proof.
  intros H. apply List.Forall_forall. intros o Ho. eapply forallb_forall in H; [|exact Ho].
  destruct o; [discriminate | discriminate H].
Qed.

(** Filling a column with its statistic leaves that statistic the
    column's unique mode (or the column unchanged). *)
Lemma most_frequent_refill col m :
  most_frequent col = Ok (Some m) ->
  most_frequent (map (fun o => match o with Some v => Some v | None => Some m end) col) =
  Ok (Some m).
Proof.
  intros Hm. destruct (most_frequent_mode col m Hm) as [Hin Hmax].
  destruct (forallb (fun o => match o with Some _ => true | None => false end) col) eqn:Hall.
  { rewrite map_fill_complete; [exact Hm | apply forallb_some_true; exact Hall]. }
  apply forallb_some_false in Hall.
  set (k := length (List.filter (fun o => match o with Some _ => false | None => true end) col))
    in *.
  assert (Hmeq : cell_eqb m m = true) by (apply cell_eqb_eq; reflexivity).
  assert (Hmk : count_of m (observed (map (fun o => match o with Some v => Some v | None => Some m end) col)) =
                (count_of m (observed col) + k)%nat)
    by (rewrite count_fill, Hmeq; reflexivity).
  assert (Hlt : forall v, v <> m ->
            (count_of v (observed (map (fun o => match o with Some v => Some v | None => Some m end) col)) <
             count_of m (observed (map (fun o => match o with Some v => Some v | None => Some m end) col)))%nat).
  { intros v Hv. rewrite count_fill, Hmk.
    destruct (cell_eqb v m) eqn:E; [apply cell_eqb_eq in E; contradiction|].
    specialize (Hmax v). lia. }
  unfold most_frequent.
  set (obs := observed (map (fun o => match o with Some v => Some v | None => Some m end) col)) in *.
  assert (Hmobs : In m obs) by (apply count_of_pos_in; rewrite Hmk; lia).
  assert (Hmds : In m (distinct obs)) by (apply In_distinct; exact Hmobs).
  destruct (distinct obs) as [|d0 ds] eqn:Hds; [destruct Hmds|].
  set (maxc := fold_right (fun v m => Nat.max (count_of v obs) m) 0%nat (d0 :: ds)).
  assert (Hmax' : maxc = count_of m obs).
  { apply Nat.le_antisymm.
    - apply fold_max_le. intros w _.
      destruct (cell_eqb w m) eqn:E; [apply cell_eqb_eq in E; subst; lia|].
      assert (w <> m) by (intros ->; rewrite Hmeq in E; discriminate).
      specialize (Hlt w H). lia.
    - apply count_le_max. exact Hmds. }
  assert (HF : forall y, In y (List.filter (fun v => Nat.eqb (count_of v obs) maxc) (d0 :: ds)) ->
                 y = m).
  { intros y Hy. apply filter_In in Hy as [_ Hy]. apply Nat.eqb_eq in Hy.
    destruct (cell_eqb y m) eqn:E; [apply cell_eqb_eq; exact E|].
    assert (y <> m) by (intros ->; rewrite Hmeq in E; discriminate).
    specialize (Hlt y H). lia. }
  assert (HmF : In m (List.filter (fun v => Nat.eqb (count_of v obs) maxc) (d0 :: ds))).
  { apply filter_In. split; [exact Hmds|]. apply Nat.eqb_eq. symmetry. exact Hmax'. }
  destruct (List.filter (fun v => Nat.eqb (count_of v obs) maxc) (d0 :: ds)) as [|x r];
    [destruct HmF|].
  rewrite (HF x (or_introl eq_refl)), py_min_from_const; [reflexivity|].
  intros y Hy. apply HF. right. exact Hy.
Qed.

(** A table whose every column is complete and has a statistic goes
    through [impute] unchanged. *)
Lemma impute_complete tbl :
  Forall (fun c => (exists m, most_frequent (snd c) = Ok (Some m)) /\
                   Forall (fun o => o <> None) (snd c)) tbl ->
  impute tbl = Ok tbl.
Proof.
  intros H.
  assert (Hs : exists stats,
             map_result (fun c => most_frequent (snd c)) tbl = Ok stats /\
             Forall2 (fun c st => exists m, st = Some m) tbl stats).
  { induction H as [|c r [(m & Hm) _] _ IH]; [exists []; split; [reflexivity | constructor]|].
    destruct IH as (stats & Hr & Hst). exists (Some m :: stats).
    cbn [map_result]. rewrite Hm. cbn [bind]. rewrite Hr. cbn [bind].
    split; [reflexivity|]. constructor; [exists m; reflexivity | exact Hst]. }
  destruct Hs as (stats & Hr & Hst). unfold impute. rewrite Hr. cbn [bind]. clear Hr.
  induction Hst as [|[name col] st r rs (m & ->) _ IH]; [reflexivity|].
  inversion H as [|? ? [_ Hc] Hrest]; subst.
  specialize (IH Hrest).
  cbn [existsb combine map orb].
  destruct (existsb (fun o : option cell => match o with None => true | Some _ => false end) rs);
    [discriminate IH|].
  injection IH as IH. rewrite IH. cbn [snd] in Hc. rewrite map_fill_complete by exact Hc.
  reflexivity.
Qed.

Lemma map_fst_filter (p : string -> bool) (tbl : table) :
  map fst (List.filter (fun c => p (fst c)) tbl) = List.filter p (map fst tbl).
Proof.
  induction tbl as [|c r IH]; [reflexivity|]. cbn [List.filter map].
  destruct (p (fst c)); cbn [map]; rewrite IH; reflexivity.
Qed.

Lemma impute_names tbl tbl' : impute tbl = Ok tbl' -> map fst tbl' = map fst tbl.
Proof.
  intros H. pose proof (impute_columns _ _ H) as Hc. clear H.
  induction Hc as [|c c' r r' [Hn _] _ IH]; [reflexivity|].
  cbn [map]. rewrite Hn, IH. reflexivity.
Qed.

Lemma impute_no_missing tbl tbl' :
  impute tbl = Ok tbl' -> forall name col o, In (name, col) tbl' -> In o col -> o <> None.
Proof.
  intros H. pose proof (impute_columns _ _ H) as Hc. clear H.
  induction Hc as [|c c' r r' [_ (m & _ & Hc')] _ IH];
    intros name col o Hin Ho; [destruct Hin|].
  destruct Hin as [Heq|Hin]; [|exact (IH name col o Hin Ho)].
  subst c'. cbn [snd] in Hc'. rewrite Hc' in Ho. apply in_map_iff in Ho as (x & <- & _).
  destruct x; discriminate.
Qed.

Lemma replace_3plus_names tbl : map fst (replace_3plus tbl) = map fst tbl.
Proof.
  unfold replace_3plus. induction tbl as [|[n c] r IH]; [reflexivity|].
  cbn [map fst]. rewrite IH. reflexivity.
Qed.

Lemma replace_3plus_in name col tbl :
  In (name, col) (replace_3plus tbl) ->
  exists col0, In (name, col0) tbl /\ col = map (option_map replace_cell) col0.
Proof.
  unfold replace_3plus. intros H. apply in_map_iff in H as ([n c] & Heq & Hin).
  injection Heq as <- <-. exists c. split; [exact Hin | reflexivity].
Qed.

Lemma replace_cell_not_3plus x : replace_cell x <> CStr "3+".
Proof.
  unfold replace_cell. destruct (cell_eqb x (CStr "3+")) eqn:E; [discriminate|].
  intros ->. rewrite (proj2 (cell_eqb_eq _ _) eq_refl) in E. discriminate.
Qed.

Lemma get_column_in name tbl col : get_column name tbl = Ok col -> In name (map fst tbl).
Proof.
  unfold get_column. destruct (find (fun c => String.eqb (fst c) name) tbl) as [[n c]|] eqn:E;
    [|discriminate].
  intros _. apply find_some in E as [Hin Hn]. apply String.eqb_eq in Hn. cbn [fst] in Hn.
  subst. apply in_map_iff. exists (name, c). split; [reflexivity | exact Hin].
Qed.

Lemma get_set_other name col codes tbl :
  name <> col -> get_column name (set_column col codes tbl) = get_column name tbl.
Proof.
  intros Hne. unfold get_column, set_column.
  induction tbl as [|c r IH]; [reflexivity|]. cbn [map find].
  destruct (String.eqb (fst c) col) eqn:E1.
  - apply String.eqb_eq in E1. cbn [fst].
    assert (Hf : String.eqb col name = false) by (apply String.eqb_neq; congruence).
    rewrite Hf. rewrite E1, Hf. exact IH.
  - destruct (String.eqb (fst c) name); [reflexivity | exact IH].
Qed.

Lemma get_set_same col codes tbl old :
  get_column col tbl = Ok old -> get_column col (set_column col codes tbl) = Ok codes.
Proof.
  unfold get_column, set_column.
  induction tbl as [|c r IH]; [discriminate|]. cbn [map find].
  destruct (String.eqb (fst c) col) eqn:E1.
  - intros _. cbn [fst]. rewrite String.eqb_refl. reflexivity.
  - rewrite E1. exact IH.
Qed.

Lemma set_column_names col codes tbl : map fst (set_column col codes tbl) = map fst tbl.
Proof.
  unfold set_column. induction tbl as [|c r IH]; [reflexivity|]. cbn [map].
  rewrite IH. destruct (String.eqb (fst c) col) eqn:E; [|reflexivity].
  apply String.eqb_eq in E. rewrite E. reflexivity.
Qed.

Lemma set_column_in name c col codes tbl :
  In (name, c) (set_column col codes tbl) -> In (name, c) tbl \/ c = codes.
Proof.
  unfold set_column. intros H. apply in_map_iff in H as (c0 & Heq & Hin).
  destruct (String.eqb (fst c0) col).
  - injection Heq as _ <-. right. reflexivity.
  - subst c0. left. exact Hin.
Qed.

Lemma encode_columns_frame cols tbl E tbl' E' :
  encode_columns cols tbl E = Ok (tbl', E') ->
  map fst tbl' = map fst tbl /\
  forall name, ~ In name cols -> get_column name tbl' = get_column name tbl /\ E' !! name = E !! name.
Proof.
  revert tbl E. induction cols as [|col rest IH]; intros tbl E H.
  - injection H as <- <-. split; [reflexivity|]. intros name _. split; reflexivity.
  - cbn [encode_columns] in H.
    destruct (get_column col tbl) as [column|]; [|discriminate]. cbn [bind] in H.
    destruct (le_fit_transform column) as [[le codes]|]; [|discriminate]. cbn [bind] in H.
    destruct (IH _ _ H) as [Hn Hother]. split; [rewrite Hn; apply set_column_names|].
    intros name Hname.
    assert (Hne : name <> col) by (intros ->; apply Hname; left; reflexivity).
    destruct (Hother name (fun Hin => Hname (or_intror Hin))) as [Hg Hk].
    rewrite Hg, get_set_other by exact Hne. split; [reflexivity|].
    rewrite Hk. apply lookup_insert_ne. congruence.
Qed.

Lemma encode_columns_present cols tbl E tbl' E' :
  encode_columns cols tbl E = Ok (tbl', E') -> forall col, In col cols -> In col (map fst tbl).
Proof.
  revert tbl E. induction cols as [|col0 rest IH]; intros tbl E H col Hin; [destruct Hin|].
  cbn [encode_columns] in H.
  destruct (get_column col0 tbl) as [column|] eqn:Hg; [|discriminate]. cbn [bind] in H.
  destruct (le_fit_transform column) as [[le codes]|]; [|discriminate]. cbn [bind] in H.
  destruct Hin as [<-|Hin]; [exact (get_column_in _ _ _ Hg)|].
  rewrite <- (set_column_names col0 codes tbl). exact (IH _ _ H col Hin).
Qed.

Lemma encode_columns_no_missing cols tbl E tbl' E' :
  encode_columns cols tbl E = Ok (tbl', E') ->
  (forall name col o, In (name, col) tbl -> In o col -> o <> None) ->
  forall name col o, In (name, col) tbl' -> In o col -> o <> None.
Proof.
  revert tbl E. induction cols as [|col0 rest IH]; intros tbl E H Hc.
  - injection H as <- <-. exact Hc.
  - cbn [encode_columns] in H.
    destruct (get_column col0 tbl) as [column|]; [|discriminate]. cbn [bind] in H.
    destruct (le_fit_transform column) as [[le codes]|] eqn:Hf; [|discriminate]. cbn [bind] in H.
    apply (IH _ _ H). intros name col o Hin Ho.
    destruct (set_column_in _ _ _ _ _ Hin) as [Hin' | ->]; [exact (Hc _ _ _ Hin' Ho)|].
    unfold le_fit_transform in Hf.
    destruct (le_fit column) as [le0|]; [|discriminate]. cbn [bind] in Hf.
    destruct (map_result _ column) as [zs|]; [|discriminate]. cbn [bind] in Hf.
    injection Hf as _ <-. apply in_map_iff in Ho as (z & <- & _). discriminate.
Qed.

Lemma le_fit_transform_decode col le codes :
  le_fit_transform col = Ok (le, codes) ->
  Forall2 (fun o z => exists v i, o = Some v /\ z = Some (CNum (Z.of_nat i)) /\
                                nth_error (classes_ le) i = Some v) col codes.
Proof.
  unfold le_fit_transform.
  destruct (le_fit col) as [le0|]; [|discriminate]. cbn [bind].
  destruct (map_result _ col) as [zs|] eqn:Hz; [|discriminate]. cbn [bind].
  intros H. injection H as <- <-.
  apply map_result_forall2 in Hz.
  induction Hz as [|o z r zs' Hoz _ IH]; [constructor|]. cbn [map]. constructor; [|exact IH].
  destruct o as [v|]; [|discriminate].
  unfold le_transform in Hoz.
  destruct (index_of v (classes_ le0)) as [i|] eqn:Hi; [|discriminate].
  injection Hoz as <-. exists v, i. split; [reflexivity|]. split; [reflexivity|].
  apply AppExtras.index_of_nth. exact Hi.
Qed.

Lemma NoDup_distinct l : List.NoDup (distinct l).
Proof.
  induction l as [|x r IH]; [constructor|]. cbn [distinct]. apply List.NoDup_cons.
  - intros H. apply filter_In in H as [_ H].
    rewrite (proj2 (cell_eqb_eq x x) eq_refl) in H. discriminate.
  - apply List.NoDup_filter. exact IH.
Qed.

Lemma sorted_insert_hd x l l' y :
  sorted_insert x l = Ok l' ->
  HdRel (fun a b => cell_lt a b = Ok true) y l -> cell_lt y x = Ok true ->
  HdRel (fun a b => cell_lt a b = Ok true) y l'.
Proof.
  destruct l as [|z r]; cbn [sorted_insert]; intros H Hhd Hyx.
  - injection H as <-. constructor. exact Hyx.
  - destruct (cell_lt x z) as [[]|]; cbn [bind] in H; [| |discriminate].
    + injection H as <-. constructor. exact Hyx.
    + destruct (sorted_insert x r); cbn [bind] in H; [|discriminate].
      injection H as <-. constructor. apply HdRel_inv in Hhd. exact Hhd.
Qed.

Lemma sorted_insert_spec x l l' :
  Sorted (fun a b => cell_lt a b = Ok true) l -> ~ In x l -> sorted_insert x l = Ok l' ->
  Sorted (fun a b => cell_lt a b = Ok true) l' /\ (forall z, In z l' <-> z = x \/ In z l).
Proof.
  revert l'. induction l as [|y r IH]; intros l' Hs Hx H; cbn [sorted_insert] in H.
  - injection H as <-. split; [repeat constructor|]. intros z. simpl. intuition.
  - destruct (cell_lt x y) as [lt|] eqn:Hxy; [|discriminate]. cbn [bind] in H.
    destruct lt.
    + injection H as <-. split; [constructor; [exact Hs | constructor; exact Hxy]|].
      intros z. simpl. intuition.
    + destruct (sorted_insert x r) as [r'|] eqn:Hr; [|discriminate]. cbn [bind] in H.
      injection H as <-.
      apply Sorted_inv in Hs as [Hsr Hhd].
      destruct (IH r' Hsr (fun Hin => Hx (or_intror Hin)) eq_refl) as [Hs' Hm].
      split.
      * constructor; [exact Hs'|]. apply (sorted_insert_hd x r r' y Hr Hhd).
        apply cell_lt_trich; [exact Hxy|]. intros ->. apply Hx. left. reflexivity.
      * intros z. cbn [In]. rewrite Hm. tauto.
Qed.

Lemma sort_cells_spec l l' :
  List.NoDup l -> sort_cells l = Ok l' ->
  Sorted (fun a b => cell_lt a b = Ok true) l' /\ (forall z, In z l' <-> In z l).
Proof.
  revert l'. induction l as [|x r IH]; intros l' Hnd H; cbn [sort_cells] in H.
  - injection H as <-. split; [constructor | reflexivity].
  - destruct (sort_cells r) as [r'|] eqn:Hr; [|discriminate]. cbn [bind] in H.
    apply List.NoDup_cons_iff in Hnd as [Hx Hnd].
    destruct (IH r' Hnd eq_refl) as [Hs Hm].
    destruct (sorted_insert_spec x r' l' Hs (fun Hin => Hx (proj1 (Hm x) Hin)) H) as [Hs' Hm'].
    split; [exact Hs'|]. intros z. rewrite Hm', Hm. cbn [In]. intuition.
Qed.

Lemma le_fit_cells (col : list (option cell)) (cells : list cell) :
  map_result (fun o => match o with
                       | Some v => Ok v
                       | None => Err (TypeError "'<' not supported between instances")
                       end) col = Ok cells ->
  forall v, In v cells <-> In (Some v) col.
Proof.
  intros H. apply map_result_forall2 in H.
  induction H as [|o c r cs Hoc _ IH]; intros v; [reflexivity|].
  destruct o as [w|]; [|discriminate]. injection Hoc as <-.
  cbn [In]. rewrite IH. split; (intros [H|H]; [left; congruence | right; exact H]).
Qed.

Lemma replace_col_cells (col : list (option cell)) :
  Forall2 (fun o o' =>
             (o = None <-> o' = None) /\
             (o = Some (CStr "3+") -> o' = Some (CNum 3)) /\
             (forall v, o = Some v -> v <> CStr "3+" -> o' = Some v))
          col (map (option_map replace_cell) col).
Proof.
  induction col as [|o r IH]; [constructor|]. cbn [map]. constructor; [|exact IH].
  destruct o as [v|]; cbn [option_map].
  - split; [split; discriminate|]. split.
    + intros H. injection H as ->. reflexivity.
    + intros w H Hw. injection H as <-. unfold replace_cell.
      destruct (cell_eqb v (CStr "3+")) eqn:E; [|reflexivity].
      apply cell_eqb_eq in E. contradiction.
  - split; [tauto|]. split; [discriminate|]. intros w H. discriminate.
Qed.

(** *** Properties of the trainer *)

(** Imputation is idempotent: imputing the imputed table again succeeds
    and changes nothing (every statistic stays the column's mode). *)
Theorem impute_idempotent tbl tbl' :
  impute tbl = Ok tbl' -> impute tbl' = Ok tbl'.
Proof.
  intros H. apply impute_complete.
  pose proof (impute_columns _ _ H) as Hc. clear H.
  induction Hc as [|c c' r r' (_ & m & Hm & Hc') _ IH]; constructor; [|exact IH].
  split.
  - exists m. rewrite Hc'. apply most_frequent_refill. exact Hm.
  - rewrite Hc'. apply List.Forall_forall. intros o Ho.
    apply in_map_iff in Ho as (x & <- & _). destruct x; discriminate.
Qed.

Lemma impute_idempotent_witness : impute sample_imputed = Ok sample_imputed.
Proof. apply (impute_idempotent sample_raw). vm_compute; reflexivity. Defined.

(** A column with no observed value (all cells missing, or no row at all)
    has a NaN statistic: [transform] drops it and the assignment to
    [df.iloc[:, :]] raises, so [impute] never succeeds on such a table. *)
Theorem impute_blank_column_fails tbl name col :
  In (name, col) tbl -> observed col = [] -> exists e, impute tbl = Err e.
Proof.
  intros Hin Hobs. destruct (impute tbl) as [tbl'|e] eqn:H; [|exists e; reflexivity].
  exfalso. pose proof (impute_columns _ _ H) as Hc. clear H.
  induction Hc as [|c c' r r' (_ & m & Hm & _) _ IH]; [destruct Hin|].
  destruct Hin as [-> | Hin]; [|exact (IH Hin)].
  apply most_frequent_mode in Hm as [Hm _]. cbn [snd] in Hm. rewrite Hobs in Hm. exact Hm.
Qed.

Lemma impute_blank_column_fails_witness : exists e, impute raw_blank_credit = Err e.
Proof.
  apply (impute_blank_column_fails raw_blank_credit "Credit_History" [None; None; None]).
  - vm_compute. do 10 right. left. reflexivity.
  - reflexivity.
Defined.

(** [df.replace({'3+': 3})] keeps the columns and the missing cells,
    turns every "3+" into 3, leaves every other cell as it is, and leaves
    no "3+" anywhere. *)
Theorem replace_3plus_cells tbl :
  map fst (replace_3plus tbl) = map fst tbl /\
  (forall name col, In (name, col) (replace_3plus tbl) -> ~ In (Some (CStr "3+")) col) /\
  Forall2 (fun c c' =>
             Forall2 (fun o o' =>
                        (o = None <-> o' = None) /\
                        (o = Some (CStr "3+") -> o' = Some (CNum 3)) /\
                        (forall v, o = Some v -> v <> CStr "3+" -> o' = Some v))
                     (snd c) (snd c'))
          tbl (replace_3plus tbl).
Proof.
  split; [apply replace_3plus_names|]. split.
  - intros name col Hin H3.
    destruct (replace_3plus_in _ _ _ Hin) as (col0 & _ & ->).
    apply in_map_iff in H3 as (o & Ho & _). destruct o as [x|]; [|discriminate].
    injection Ho as Ho. exact (replace_cell_not_3plus x Ho).
  - unfold replace_3plus. induction tbl as [|[n c] r IH]; [constructor|].
    cbn [map]. constructor; [apply replace_col_cells | exact IH].
Qed.

(** [LabelEncoder.fit] stores in [classes_] exactly the labels of the
    column, strictly increasing (so each once, and a label's code is its
    rank among them). *)
Theorem le_fit_sorted_classes col le :
  le_fit col = Ok le ->
  Sorted (fun a b => cell_lt a b = Ok true) (classes_ le) /\
  (forall v, In v (classes_ le) <-> In (Some v) col).
Proof.
  unfold le_fit.
  destruct (map_result _ col) as [cells|] eqn:Hc; [|discriminate]. cbn [bind].
  destruct (sort_cells (distinct cells)) as [cls|] eqn:Hs; [|discriminate]. cbn [bind].
  intros H. injection H as <-. cbn [classes_].
  destruct (sort_cells_spec _ _ (NoDup_distinct cells) Hs) as [Hsort Hm].
  split; [exact Hsort|]. intros v. rewrite Hm, In_distinct. exact (le_fit_cells _ _ Hc v).
Qed.

Lemma le_fit_sorted_classes_witness :
  Sorted (fun a b => cell_lt a b = Ok true) [CStr "Rural"; CStr "Semiurban"; CStr "Urban"] /\
  (forall v, In v [CStr "Rural"; CStr "Semiurban"; CStr "Urban"] <->
             In (Some v) [Some (CStr "Urban"); Some (CStr "Rural"); Some (CStr "Semiurban")]).
Proof.
  apply (le_fit_sorted_classes [Some (CStr "Urban"); Some (CStr "Rural"); Some (CStr "Semiurban")]
           {| classes_ := [CStr "Rural"; CStr "Semiurban"; CStr "Urban"] |}).
  vm_compute; reflexivity.
Defined.

(** The encoding loop of lines 21-25, for distinct column names: each
    encoded column, read back through the encoder stored for it, gives
    the column as it was before encoding; a code is a position in that
    encoder's [classes_]. *)
Theorem encode_columns_decode cols tbl E tbl' E' :
  encode_columns cols tbl E = Ok (tbl', E') ->
  List.NoDup cols ->
  forall col, In col cols ->
  exists le orig codes,
    E' !! col = Some le /\ get_column col tbl = Ok orig /\ get_column col tbl' = Ok codes /\
    Forall2 (fun o z => exists v i, o = Some v /\ z = Some (CNum (Z.of_nat i)) /\
                                  nth_error (classes_ le) i = Some v) orig codes.
Proof.
  revert tbl E. induction cols as [|col0 rest IH]; intros tbl E H Hnd col Hin; [destruct Hin|].
  cbn [encode_columns] in H.
  destruct (get_column col0 tbl) as [column|] eqn:Hg; [|discriminate]. cbn [bind] in H.
  destruct (le_fit_transform column) as [[le codes]|] eqn:Hf; [|discriminate]. cbn [bind] in H.
  apply List.NoDup_cons_iff in Hnd as [Hn0 Hnd].
  destruct Hin as [<-|Hin].
  - destruct (encode_columns_frame _ _ _ _ _ H) as [_ Hother].
    destruct (Hother col0 Hn0) as [Hg' Hk].
    exists le, column, codes. split; [rewrite Hk; apply lookup_insert_eq|].
    split; [exact Hg|]. split; [rewrite Hg'; exact (get_set_same _ _ _ _ Hg)|].
    exact (le_fit_transform_decode _ _ _ Hf).
  - destruct (IH _ _ H Hnd col Hin) as (le' & orig & codes' & Hk & Ho & Hc & Hd).
    assert (Hne : col <> col0) by (intros ->; exact (Hn0 Hin)).
    exists le', orig, codes'. rewrite get_set_other in Ho by exact Hne. tauto.
Qed.

Lemma encode_columns_decode_witness :
  exists le orig codes,
    sample_encoders !! "Self_Employed" = Some le /\
    get_column "Self_Employed" sample_replaced = Ok orig /\
    get_column "Self_Employed" sample_trained_table = Ok codes /\
    Forall2 (fun o z => exists v i, o = Some v /\ z = Some (CNum (Z.of_nat i)) /\
                                  nth_error (classes_ le) i = Some v) orig codes.
Proof.
  apply (encode_columns_decode encoded_cols sample_replaced ∅ sample_trained_table sample_encoders).
  - vm_compute; reflexivity.
  - repeat constructor; simpl; intuition discriminate.
  - simpl; tauto.
Defined.

(** The columns the trainer does not encode (Dependents and the numeric
    ones) reach the model as imputed, with "3+" replaced, and are not
    encoded. *)
Theorem train_keeps_other_columns raw tbl encs :
  train raw = Ok (tbl, encs) ->
  exists df df',
    drop_column "Loan_ID" raw = Ok df /\ impute df = Ok df' /\
    forall name, ~ In name encoded_cols -> get_column name tbl = get_column name (replace_3plus df').
Proof.
  unfold train. intros H.
  destruct (drop_column "Loan_ID" raw) as [df|] eqn:Hd; [|discriminate]. cbn [bind] in H.
  destruct (impute df) as [df'|] eqn:Hi; [|discriminate]. cbn [bind] in H.
  exists df, df'. split; [reflexivity|]. split; [exact Hi|].
  intros name Hn. exact (proj1 (proj2 (encode_columns_frame _ _ _ _ _ H) name Hn)).
Qed.

Lemma train_keeps_other_columns_witness :
  exists df df',
    drop_column "Loan_ID" sample_raw = Ok df /\ impute df = Ok df' /\
    forall name, ~ In name encoded_cols ->
      get_column name sample_trained_table = get_column name (replace_3plus df').
Proof.
  apply (train_keeps_other_columns sample_raw sample_trained_table sample_encoders).
  vm_compute; reflexivity.
Defined.

(** The table the trainer hands to the model has the CSV's columns
    without Loan_ID, in their order, and no missing cell. *)
Theorem train_output_complete raw tbl encs :
  train raw = Ok (tbl, encs) ->
  map fst tbl = List.filter (fun n => negb (String.eqb n "Loan_ID")) (map fst raw) /\
  (forall name col o, In (name, col) tbl -> In o col -> o <> None).
Proof.
  unfold train. intros H.
  destruct (drop_column "Loan_ID" raw) as [df|] eqn:Hd; [|discriminate]. cbn [bind] in H.
  destruct (impute df) as [df'|] eqn:Hi; [|discriminate]. cbn [bind] in H.
  unfold drop_column in Hd. destruct (existsb _ raw); [|discriminate].
  injection Hd as <-.
  split.
  - rewrite (proj1 (encode_columns_frame _ _ _ _ _ H)), replace_3plus_names, (impute_names _ _ Hi).
    exact (map_fst_filter (fun n => negb (String.eqb n "Loan_ID")) raw).
  - apply (encode_columns_no_missing _ _ _ _ _ H). intros name col o Hin Ho.
    destruct (replace_3plus_in _ _ _ Hin) as (col0 & Hin0 & ->).
    apply in_map_iff in Ho as (o0 & <- & Ho0).
    pose proof (impute_no_missing _ _ Hi _ _ _ Hin0 Ho0) as Hs.
    destruct o0; [discriminate | contradiction].
Qed.

Lemma train_output_complete_witness :
  map fst sample_trained_table =
    List.filter (fun n => negb (String.eqb n "Loan_ID")) (map fst sample_raw) /\
  (forall name col o, In (name, col) sample_trained_table -> In o col -> o <> None).
Proof.
  apply (train_output_complete sample_raw sample_trained_table sample_encoders).
  vm_compute; reflexivity.
Defined.

(** A CSV without a Loan_ID column makes line 11 raise [KeyError]. *)
Theorem train_requires_loan_id raw :
  ~ In "Loan_ID" (map fst raw) -> train raw = Err (KeyError "Loan_ID").
Proof.
  intros Hn. unfold train, drop_column.
  destruct (existsb _ raw) eqn:E; [|reflexivity]. exfalso.
  apply existsb_exists in E as (c & Hin & Hc). apply String.eqb_eq in Hc.
  apply Hn. apply in_map_iff. exists c. split; [exact Hc | exact Hin].
Qed.

Lemma train_requires_loan_id_witness : train raw_without_id = Err (KeyError "Loan_ID").
Proof.
  apply train_requires_loan_id. simpl. intuition discriminate.
Defined.

(** A CSV without one of the six encoded columns never trains. *)
Theorem train_requires_encoded_columns raw col :
  In col encoded_cols -> ~ In col (map fst raw) -> exists e, train raw = Err e.
Proof.
  intros Hc Hn. destruct (train raw) as [[tbl encs]|e] eqn:H; [|exists e; reflexivity].
  exfalso. unfold train in H.
  destruct (drop_column "Loan_ID" raw) as [df|] eqn:Hd; [|discriminate]. cbn [bind] in H.
  destruct (impute df) as [df'|] eqn:Hi; [|discriminate]. cbn [bind] in H.
  pose proof (encode_columns_present _ _ _ _ _ H col Hc) as Hp.
  rewrite replace_3plus_names, (impute_names _ _ Hi) in Hp.
  unfold drop_column in Hd. destruct (existsb _ raw); [|discriminate].
  injection Hd as <-.
  rewrite (map_fst_filter (fun n => negb (String.eqb n "Loan_ID")) raw) in Hp.
  apply filter_In in Hp as [Hp _]. exact (Hn Hp).
Qed.

Lemma train_requires_encoded_columns_witness : exists e, train raw_without_education = Err e.
Proof.
  apply (train_requires_encoded_columns raw_without_education "Education").
  - simpl; tauto.
  - simpl. intuition discriminate.
Defined.

End TrainerExtras.
